(** * datacube-stats: statistic descriptors, data loader, task decomposer
      and output driver of [main.py], embedded as Rocq functions.

    Conventions of the embedding.
    - A Python object whose keys are fixed by the datacube schemas (a
      measurement definition, an output-product definition, a source
      specification) is a record; a dict used as a map (the driver's
      [output_files], a dataset's [data_vars], the [STATS] registry) is an
      association list in insertion order.
    - Code that can raise returns [result]: [Ok v] or [Raise e].
    - numpy arrays over (time, y, x) are time-major lists of rows, a row being
      the flattened (y, x) plane; integer data is [Z], float64 data is a
      primitive [float].
    - Calls into numpy, xarray, rasterio and the datacube index are modelled by
      what they return; where the result is not determined by the arguments
      (a sort that is not stable, an I/O call that may fail) the function is a
      section variable or is driven by an explicit fault oracle.

    Part I holds the embedding, Part II the lemmas and theorems. *)

From Stdlib Require Import ZArith List String Ascii Bool Arith Lia.
From Stdlib Require Import Permutation Sorted Orders Mergesort.
From Stdlib Require Import Floats.PrimFloat Numbers.Cyclic.Int63.Uint63.
From Stdlib Require Import Floats.SpecFloat Floats.FloatOps Floats.FloatAxioms.
Import ListNotations.

Set Implicit Arguments.

Open Scope string_scope.
Open Scope list_scope.
Open Scope Z_scope.

(** * Part I: the embedding *)

(** ** Exceptions and results *)

Inductive exn : Type :=
| ConfigurationError (args : list string)
| RuntimeError (msg : string)
| AssertionError
| KeyError (key : string)
| AttributeError (attr : string)
| IndexError
| ValueError (msg : string)
| MergeError (var : string)
| IOError (what : string).

Inductive result (A : Type) : Type :=
| Ok (value : A)
| Raise (e : exn).

Arguments Ok {A} value.
Arguments Raise {A} e.

Definition bind {A B : Type} (r : result A) (k : A -> result B) : result B :=
  match r with
  | Ok a => k a
  | Raise e => Raise e
  end.

Notation "x <- c ;; k" := (bind c (fun x => k))
  (at level 61, c at next level, right associativity).

(** [[f(x) for x in xs]] where [f] may raise: the first exception wins. *)
Fixpoint mapM {A B : Type} (f : A -> result B) (xs : list A) : result (list B) :=
  match xs with
  | [] => Ok []
  | x :: rest =>
      y <- f x ;;
      ys <- mapM f rest ;;
      Ok (y :: ys)
  end.

(** ** Python helpers *)

(** [x in names] for a list or a set of strings. *)
Definition contains (names : list string) (x : string) : bool :=
  existsb (String.eqb x) names.

(** [sep.join(parts)] *)
Definition join (sep : string) (parts : list string) : string :=
  String.concat sep parts.

(** The one-character string holding a double quote. *)
Definition dquote : string := String (ascii_of_nat 34) EmptyString.

(** [enumerate(xs)] *)
Definition enumerate {A : Type} (xs : list A) : list (nat * A) :=
  combine (seq 0 (List.length xs)) xs.

(** [[xs[i] for i in idx]] for indexes known to be in range. *)
Definition select {A : Type} (idx : list nat) (xs : list A) : list A :=
  flat_map (fun i => match nth_error xs i with Some x => [x] | None => [] end) idx.

(** [d[key]] on an insertion-ordered dict. *)
Fixpoint dict_get {V : Type} (d : list (string * V)) (key : string) : option V :=
  match d with
  | [] => None
  | (k, v) :: rest => if String.eqb k key then Some v else dict_get rest key
  end.

(** [d[key] = v]: an existing key keeps its position, a new one goes last. *)
Fixpoint dict_set {V : Type} (d : list (string * V)) (key : string) (v : V)
  : list (string * V) :=
  match d with
  | [] => [(key, v)]
  | (k, w) :: rest =>
      if String.eqb k key then (k, v) :: rest else (k, w) :: dict_set rest key v
  end.

Definition getitem {V : Type} (d : list (string * V)) (key : string) : result V :=
  match dict_get d key with
  | Some v => Ok v
  | None => Raise (KeyError key)
  end.

(** A dict built from [(key, value)] pairs, as [OrderedDict(pairs)] does. *)
Definition dict_of {V : Type} (pairs : list (string * V)) : list (string * V) :=
  fold_left (fun d kv => dict_set d (fst kv) (snd kv)) pairs [].

(** A Python number held by a measurement definition ([nodata]). *)
Inductive pynum : Type :=
| PyInt (z : Z)
| PyFloat (f : float).

(** ** Measurement definitions *)

Module Measurement.
(** The keys every measurement definition carries, and whatever else the
    product definition put beside them ([aliases], [flags_definition], ...). *)
Record t : Type := mk {
  name : string;
  dtype : string;
  nodata : pynum;
  units : string;
  extras : list (string * string)
}.
End Measurement.

Abbreviation measurement := Measurement.t.

(** [[m['name'] for m in input_measurements]] *)
Definition measurement_names (input_measurements : list measurement) : list string :=
  map Measurement.name input_measurements.

(** ** Calendar arithmetic behind numpy's datetime64 unit casts

    A [datetime64[ns]] is an int64 count of nanoseconds since 1970-01-01.
    Casting it to [datetime64[D]] floors it to a day count; casting to
    [datetime64[M]] or [datetime64[Y]] goes through the proleptic Gregorian
    date of that day.  [civil_from_days] and [days_from_civil] are that
    calendar, written with era (400 years), year of era and day of year. *)

Definition ns_per_day : Z := 86400000000000.

Definition days_per_era : Z := 146097.

(** Days from 0000-03-01 to 1970-01-01. *)
Definition epoch_shift : Z := 719468.

Definition civil_from_days (z : Z) : Z * Z * Z :=
  let z := z + epoch_shift in
  let era := z / days_per_era in
  let doe := z - era * days_per_era in
  let yoe := (doe - doe / 1460 + doe / 36524 - doe / 146096) / 365 in
  let y := yoe + era * 400 in
  let doy := doe - (365 * yoe + yoe / 4 - yoe / 100) in
  let mp := (5 * doy + 2) / 153 in
  let d := doy - (153 * mp + 2) / 5 + 1 in
  let m := if mp <? 10 then mp + 3 else mp - 9 in
  (if m <=? 2 then y + 1 else y, m, d).

Definition days_from_civil (y m d : Z) : Z :=
  let y := if m <=? 2 then y - 1 else y in
  let era := y / 400 in
  let yoe := y - era * 400 in
  let doy := (153 * (if 2 <? m then m - 3 else m + 9) + 2) / 5 + d - 1 in
  let doe := yoe * 365 + yoe / 4 - yoe / 100 + doy in
  era * days_per_era + doe - epoch_shift.



(** The calendar fields (year, month, day) of a [datetime64[ns]]. *)
Definition calendar_fields (t : Z) : Z * Z * Z :=
  civil_from_days (t / ns_per_day).

(** [values.astype('datetime64[Y]')], [... 'datetime64[M]'] and
    [... 'datetime64[D]'] seen as integers: years, months and days since the
    epoch. *)
Definition astype_datetime64_Y (t : Z) : Z :=
  let '(y, _, _) := calendar_fields t in y - 1970.

Definition astype_datetime64_M (t : Z) : Z :=
  let '(y, m, _) := calendar_fields t in (y - 1970) * 12 + (m - 1).

Definition astype_datetime64_D (t : Z) : Z :=
  t / ns_per_day.

(** A [datetime64[M]] promoted to [datetime64[D]] (what the subtraction of a
    month from a day does first): the first day of that month. *)
Definition month_to_days (months : Z) : Z :=
  days_from_civil (1970 + months / 12) (months mod 12 + 1) 1.

(** [.astype('int32')] and int32 arithmetic: two's complement wrap-around. *)
Definition int32 (z : Z) : Z :=
  (z + 2147483648) mod 4294967296 - 2147483648.

Definition datetime64_to_inttime (values : Z) : Z :=
  let years := int32 (int32 (astype_datetime64_Y values) + 1970) in
  let months := int32 (int32 (int32 (astype_datetime64_M values) mod 12) + 1) in
  let days :=
    int32 (astype_datetime64_D values - month_to_days (astype_datetime64_M values) + 1) in
  int32 (int32 (int32 (years * 10000) + int32 (months * 100)) + days).






(** ** Arrays and datasets *)

(** A pixel value: an integer dtype keeps integers, a masked (float64) array
    holds floats, NaN where the mask or the no-data value removed the pixel. *)
Inductive cell : Type :=
| I (z : Z)
| F (f : float).

(** int64 -> float64, exact below 2^53 (counts along time are far below). *)
Definition float_of_Z (z : Z) : float :=
  if z <? 0 then PrimFloat.opp (PrimFloat.of_uint63 (Uint63.of_Z (- z)))
  else PrimFloat.of_uint63 (Uint63.of_Z z).

Definition float_of_cell (c : cell) : float :=
  match c with
  | I z => float_of_Z z
  | F f => f
  end.

(** [c == k] for an integer constant [k]: numpy compares an integer cell as an
    integer and a float cell as a float (NaN equals nothing). *)
Definition cell_eq_scalar (c : cell) (k : Z) : bool :=
  match c with
  | I z => z =? k
  | F f => PrimFloat.eqb f (float_of_Z k)
  end.

(** Equality of two cells as xarray's [equals] sees it: equal numbers, or NaN
    on both sides. *)
Definition cell_equiv (a b : cell) : bool :=
  match a, b with
  | I x, I y => x =? y
  | _, _ =>
      let fa := float_of_cell a in
      let fb := float_of_cell b in
      PrimFloat.eqb fa fb || (PrimFloat.is_nan fa && PrimFloat.is_nan fb)
  end.

(** A variable without time axis: one value per pixel, numbers or
    [datetime64[ns]] values. *)
Inductive ndarray : Type :=
| Values (a : list cell)
| Datetimes (a : list Z).

Fixpoint list_eqb {A : Type} (eqb : A -> A -> bool) (xs ys : list A) : bool :=
  match xs, ys with
  | [], [] => true
  | x :: xs', y :: ys' => eqb x y && list_eqb eqb xs' ys'
  | _, _ => false
  end.

Definition ndarray_equals (a b : ndarray) : bool :=
  match a, b with
  | Values x, Values y => list_eqb cell_equiv x y
  | Datetimes x, Datetimes y => list_eqb Z.eqb x y
  | _, _ => false
  end.

Module Dataset.
(** An [xarray.Dataset] over (time, y, x): the [time] coordinate, the [source]
    coordinate along time when it has been assigned, the size of the flattened
    (y, x) plane, the variables (each a list of rows, one row per time) and
    the [crs] attribute when present. *)
Record t : Type := mk {
  time : list Z;
  source : option (list Z);
  npix : nat;
  data_vars : list (string * list (list cell));
  crs : option string
}.
End Dataset.

Module Reduced.
(** An [xarray.Dataset] over (y, x) only: what a statistic returns. *)
Record t : Type := mk {
  data_vars : list (string * ndarray);
  crs : option string
}.
End Reduced.

(** [data.<attr>] for an attribute or coordinate that may be absent. *)
Definition getattr {A : Type} (attr : string) (v : option A) : result A :=
  match v with
  | Some a => Ok a
  | None => Raise (AttributeError attr)
  end.

(** [a[i]] in numpy: a negative index counts from the end, anything outside
    [-n, n) raises. *)
Definition np_item {A : Type} (a : list A) (i : Z) : result A :=
  let n := Z.of_nat (List.length a) in
  let j := if i <? 0 then i + n else i in
  if (0 <=? j) && (j <? n)
  then match nth_error a (Z.to_nat j) with
       | Some x => Ok x
       | None => Raise IndexError
       end
  else Raise IndexError.

(** [a[idx]] for an integer index array. *)
Definition np_take {A : Type} (a : list A) (idx : list Z) : result (list A) :=
  mapM (np_item a) idx.

(** Modelled from the spec: [axisindex] of [datacube_apps.stats.statistics]
    is not part of the sources.  The spec's gather-by-index: given an array
    with a leading time axis and trailing spatial axes, and an integer index
    array shaped like the spatial axes, the value at the chosen time index for
    each spatial position. *)
Definition axisindex (values : list (list cell)) (index : list Z) : result (list cell) :=
  mapM (fun pi => row <- np_item values (snd pi) ;;
                  np_item row (Z.of_nat (fst pi)))
       (enumerate index).

(** The time series of pixel [p]. *)
Definition column {A : Type} (p : nat) (rows : list (list A)) : list A :=
  flat_map (fun row => match nth_error row p with Some c => [c] | None => [] end) rows.

(** A reduction along time, pixel by pixel. *)
Definition reduce_time {A B : Type} (npix : nat) (f : list A -> B)
           (rows : list (list A)) : list B :=
  map (fun p => f (column p rows)) (seq 0 npix).

(** [Dataset.apply(func)]: [func] on every variable, names and order kept. *)
Definition apply {A B : Type} (f : string -> A -> result B) (vars : list (string * A))
  : result (list (string * B)) :=
  mapM (fun v => b <- f (fst v) (snd v) ;; Ok (fst v, b)) vars.

(** [ds.rename(OrderedDict((name, name + suffix) for name in ds.data_vars))] *)
Definition rename_suffix {A : Type} (suffix : string) (vars : list (string * A))
  : list (string * A) :=
  map (fun v => ((fst v ++ suffix)%string, snd v)) vars.

(** [xarray.merge]: variables in order of first appearance; a name met again
    must hold an equal array. *)
Fixpoint merge_into (acc : list (string * ndarray)) (vars : list (string * ndarray))
  : result (list (string * ndarray)) :=
  match vars with
  | [] => Ok acc
  | (name, a) :: rest =>
      match dict_get acc name with
      | Some b => if ndarray_equals a b then merge_into acc rest
                  else Raise (MergeError name)
      | None => merge_into (acc ++ [(name, a)]) rest
      end
  end.

Fixpoint merge (datasets : list (list (string * ndarray)))
         (acc : list (string * ndarray)) : result (list (string * ndarray)) :=
  match datasets with
  | [] => Ok acc
  | ds :: rest => acc' <- merge_into acc ds ;; merge rest acc'
  end.

(** Element-wise binary operation on two arrays of one shape. *)
Definition zip_with {A B C : Type} (f : A -> B -> C) (xs : list A) (ys : list B) : list C :=
  map (fun ab => f (fst ab) (snd ab)) (combine xs ys).

(** [.sum()] of a boolean array: the number of [True]. *)
Definition sum_bools (bs : list bool) : Z :=
  fold_right Z.add 0 (map (fun b : bool => if b then 1 else 0) bs).

(** [a / b] on int64 arrays under true division (the [/] of Python 3): both
    operands become float64, and 0 / 0 is NaN. *)
Definition true_divide (a b : Z) : float :=
  PrimFloat.div (float_of_Z a) (float_of_Z b).

(** ** ValueStat *)

Module ValueStat.
(** [{attr: measurement[attr] for attr in ['name', 'dtype', 'nodata', 'units']}]
    for each input measurement: the four keys are copied, the rest dropped. *)
Definition measurements (input_measurements : list measurement) : list measurement :=
  map (fun m => Measurement.mk (Measurement.name m) (Measurement.dtype m)
                               (Measurement.nodata m) (Measurement.units m) [])
      input_measurements.
End ValueStat.

(** ** WofsStats *)

Module WofsStats.
Definition compute (data : Dataset.t) : result Reduced.t :=
  water <- getattr "water" (dict_get (Dataset.data_vars data) "water") ;;
  let wet := reduce_time (Dataset.npix data)
               (fun series => sum_bools (map (fun c => cell_eq_scalar c 128) series)) water in
  let dry := reduce_time (Dataset.npix data)
               (fun series => sum_bools (map (fun c => cell_eq_scalar c 0) series)) water in
  let clear := zip_with Z.add wet dry in
  let frequency := zip_with true_divide wet clear in
  crs <- getattr "crs" (Dataset.crs data) ;;
  Ok (Reduced.mk [("count_wet", Values (map I wet));
                  ("count_clear", Values (map I clear));
                  ("frequency", Values (map F frequency))]
                 (Some crs)).

Definition count_wet : measurement :=
  Measurement.mk "count_wet" "int16" (PyInt (-1)) "1" [].

Definition count_clear : measurement :=
  Measurement.mk "count_clear" "int16" (PyInt (-1)) "1" [].

Definition frequency : measurement :=
  Measurement.mk "frequency" "float32" (PyInt (-1)) "1" [].

Definition measurements (input_measurements : list measurement)
  : result (list measurement) :=
  let measurement_names := measurement_names input_measurements in
  if contains measurement_names "water"
  then Ok [count_wet; count_clear; frequency]
  else Raise AssertionError.
End WofsStats.

(** ** NormalisedDifferenceStats *)

Module NormalisedDifferenceStats.
Record t : Type := mk {
  stats : list string;
  band1 : string;
  band2 : string;
  name : string;
  masked : bool
}.

(** [__init__(self, band1, band2, name, stats=None, masked=True)] with
    [self.stats = stats if stats else ['min', 'max', 'mean']]: [None] and the
    empty list both select the default. *)
Definition init (band1 band2 name : string) (stats : option (list string))
           (masked : bool) : t :=
  mk (match stats with
      | Some (s :: rest) => s :: rest
      | Some [] | None => ["min"; "max"; "mean"]
      end)
     band1 band2 name masked.

Definition output (self : t) (stat : string) : measurement :=
  Measurement.mk (join "_" [name self; stat]) "float32" (PyInt (-1)) "1" [].

Definition missing_band_message : string :=
  "Input measurements for %s must include " ++ dquote ++ "%s" ++ dquote
  ++ " and " ++ dquote ++ "%s" ++ dquote.

Definition measurements (self : t) (input_measurements : list measurement)
  : result (list measurement) :=
  let measurement_names := measurement_names input_measurements in
  if negb (contains measurement_names (band1 self))
     || negb (contains measurement_names (band2 self))
  then Raise (ConfigurationError
                [missing_band_message; name self; band1 self; band2 self])
  else Ok (map (output self) (stats self)).
End NormalisedDifferenceStats.

(** ** PerBandIndexStat *)

Module PerBandIndexStat.
(** [stat_func] takes a dataset and returns a dataset of indexes: for every
    variable, one time index per pixel. *)
Record t : Type := mk {
  stat_func : Dataset.t -> result (list (string * list Z));
  masked : bool
}.

Definition index_dataset (data : Dataset.t) (name : string) (var : list Z) : result ndarray :=
  values <- getitem (Dataset.data_vars data) name ;;
  gathered <- axisindex values var ;;
  Ok (Values gathered).

Definition index_time (data : Dataset.t) (name : string) (var : list Z) : result ndarray :=
  observed <- np_take (Dataset.time data) var ;;
  Ok (Datetimes observed).

Definition index_source (data : Dataset.t) (name : string) (var : list Z) : result ndarray :=
  source <- getattr "source" (Dataset.source data) ;;
  tags <- np_take source var ;;
  Ok (Values (map I tags)).

(** [datetime64_to_inttime] on a whole variable. *)
Definition inttime_of (name : string) (var : ndarray) : result ndarray :=
  match var with
  | Datetimes a => Ok (Values (map (fun t => I (datetime64_to_inttime t)) a))
  | Values _ => Raise (AttributeError "astype")
  end.

(** [compute]: the second assignment to [time_values] replaces the dataset
    of observed timestamps by the dataset of source tags before the merge;
    the merged dataset keeps no attributes. *)
Definition compute (self : t) (data : Dataset.t) : result Reduced.t :=
  index <- stat_func self data ;;
  data_values <- apply (index_dataset data) index ;;
  time_values <- apply (index_time data) index ;;
  let time_values := rename_suffix "_observed" time_values in
  text_values <- apply inttime_of time_values ;;
  let text_values := rename_suffix "_date" text_values in
  time_values <- apply (index_source data) index ;;
  let time_values := rename_suffix "_source" time_values in
  vars <- merge [data_values; time_values; text_values] [] ;;
  Ok (Reduced.mk vars None).

Definition index_measurement (m : measurement) : measurement :=
  Measurement.mk (Measurement.name m ++ "_source") "int8" (PyInt (-1)) "1" [].

Definition date_measurement (m : measurement) : measurement :=
  Measurement.mk (Measurement.name m ++ "_observed") "float64" (PyInt 0)
                 "seconds since 1970-01-01 00:00:00" [].

Definition text_measurement (m : measurement) : measurement :=
  Measurement.mk (Measurement.name m ++ "_observed_date") "int32" (PyInt 0)
                 "Date as YYYYMMDD" [].

Definition measurements (input_measurements : list measurement) : list measurement :=
  let index_measurements := map index_measurement input_measurements in
  let date_measurements := map date_measurement input_measurements in
  let text_measurements := map text_measurement input_measurements in
  ValueStat.measurements input_measurements
  ++ date_measurements ++ index_measurements ++ text_measurements.

(** The ordering the specification states: base values, then [_source],
    then [_observed], then [_observed_date]. *)
Definition measurements_as_specified (input_measurements : list measurement)
  : list measurement :=
  ValueStat.measurements input_measurements
  ++ map index_measurement input_measurements
  ++ map date_measurement input_measurements
  ++ map text_measurement input_measurements.
End PerBandIndexStat.

(** ** PerStatIndexStat *)

Module PerStatIndexStat.
Definition index_measurement : measurement :=
  Measurement.mk "source" "int8" (PyInt (-1)) "1" [].

Definition date_measurement : measurement :=
  Measurement.mk "observed" "float64" (PyInt 0) "seconds since 1970-01-01 00:00:00" [].

Definition text_measurement : measurement :=
  Measurement.mk "observed_date" "int32" (PyInt 0) "Date as YYYYMMDD" [].

Definition measurements (input_measurements : list measurement) : list measurement :=
  ValueStat.measurements input_measurements
  ++ [date_measurement] ++ [index_measurement] ++ [text_measurement].
End PerStatIndexStat.

(** ** The registry of statistics *)

Inductive statistic : Type :=
| ValueStatistic (reduction : string)
| PerBandIndexStatistic (q : Z)
| PerStatIndexStatistic
| NormalisedDifferenceStatistic (nd : NormalisedDifferenceStats.t)
| WofsStatistic.

Definition STATS : list (string * statistic) :=
  [ ("min", ValueStatistic "min");
    ("max", ValueStatistic "max");
    ("mean", ValueStatistic "mean");
    ("percentile_10", PerBandIndexStatistic 10);
    ("percentile_50", PerBandIndexStatistic 50);
    ("percentile_90", PerBandIndexStatistic 90);
    ("medoid", PerStatIndexStatistic);
    ("ndvi_stats", NormalisedDifferenceStatistic
                     (NormalisedDifferenceStats.init "nir" "red" "ndvi"
                                                     (Some ["min"; "mean"; "max"]) true));
    ("ndwi_stats", NormalisedDifferenceStatistic
                     (NormalisedDifferenceStats.init "green" "swir1" "ndwi"
                                                     (Some ["min"; "mean"; "max"]) true));
    ("wofs", WofsStatistic) ].

(** [statistic.measurements(input_measurements)] *)
Definition statistic_measurements (s : statistic) (input_measurements : list measurement)
  : result (list measurement) :=
  match s with
  | ValueStatistic _ => Ok (ValueStat.measurements input_measurements)
  | PerBandIndexStatistic _ => Ok (PerBandIndexStat.measurements input_measurements)
  | PerStatIndexStatistic => Ok (PerStatIndexStat.measurements input_measurements)
  | NormalisedDifferenceStatistic nd =>
      NormalisedDifferenceStats.measurements nd input_measurements
  | WofsStatistic => WofsStats.measurements input_measurements
  end.

(** [statistic.masked]: every registered statistic is built with
    [masked=True]. *)
Definition statistic_masked (s : statistic) : bool :=
  match s with
  | NormalisedDifferenceStatistic nd => NormalisedDifferenceStats.masked nd
  | _ => true
  end.

(** ** Configuration documents *)

Module Storage.
(** [config['storage']]: the keys this file reads. *)
Record t : Type := mk {
  driver : string;
  crs : string;
  chunking : list (string * Z);
  dimension_order : list string
}.
End Storage.

Module ProductDefinition.
(** An entry of [config['output_products']]; [params] are its other keys
    ([zlib], [complevel], ...). *)
Record t : Type := mk {
  name : string;
  statistic : string;
  file_path_template : string;
  params : list (string * string)
}.
End ProductDefinition.

Module SourceSpec.
(** An entry of [config['sources']]; [masks] lists the product of each mask. *)
Record t : Type := mk {
  product : string;
  measurements : list string;
  group_by : option string;
  masks : list string
}.
End SourceSpec.

Module StatsConfig.
Record t : Type := mk {
  storage : Storage.t;
  sources : list SourceSpec.t;
  output_products : list ProductDefinition.t;
  start_time : Z;
  end_time : Z;
  stats_duration : string;
  step_size : string;
  location : string;
  input_region : option string
}.
End StatsConfig.

Definition STANDARD_VARIABLE_PARAM_NAMES : list string :=
  ["zlib"; "complevel"; "shuffle"; "fletcher32"; "contiguous"; "attrs"].

Definition DEFAULT_GROUP_BY : string := "time".

(** ** A state and exception monad for code with effects *)

Definition io (S A : Type) : Type := S -> result A * S.

Definition ret {S A : Type} (a : A) : io S A := fun s => (Ok a, s).

Definition raise {S A : Type} (e : exn) : io S A := fun s => (Raise e, s).

Definition lift {S A : Type} (r : result A) : io S A := fun s => (r, s).

Definition io_bind {S A B : Type} (c : io S A) (k : A -> io S B) : io S B :=
  fun s => match c s with
           | (Ok a, s') => k a s'
           | (Raise e, s') => (Raise e, s')
           end.

Notation "x <~ c ;; k" := (io_bind c (fun x => k))
  (at level 61, c at next level, right associativity).

Notation "c ;;; k" := (io_bind c (fun _ => k))
  (at level 61, right associativity).

(** [for x in xs: body(x)]: the first exception ends the loop. *)
Fixpoint for_each {S A : Type} (xs : list A) (body : A -> io S unit) : io S unit :=
  match xs with
  | [] => ret tt
  | x :: rest => body x ;;; for_each rest body
  end.

(** [with ctx: body], for a context manager whose [__exit__] returns [None]:
    an exception of [__enter__] skips both body and [__exit__]; otherwise
    [__exit__] runs however the body ended, and an exception of [__exit__]
    replaces the outcome of the body. *)
Definition with_ {S A : Type} (enter : io S unit) (body : io S A) (exit : io S unit)
  : io S A :=
  fun s => match enter s with
           | (Raise e, s1) => (Raise e, s1)
           | (Ok _, s1) =>
               let (r, s2) := body s1 in
               match exit s2 with
               | (Raise e, s3) => (Raise e, s3)
               | (Ok _, s3) => (r, s3)
               end
           end.

(** ** StatProduct and make_products *)

Module Index.
(** The datacube index as far as this file queries it: the measurements of
    each product, in the product's order, and the metadata types. *)
Record t : Type := mk {
  products : list (string * list (string * measurement));
  metadata_types : list string
}.
End Index.

Module DatasetType.
(** The product definition document [_create_product] assembles. *)
Record t : Type := mk {
  metadata_type : option string;
  name : string;
  description : string;
  product_type : string;
  storage : Storage.t;
  measurements : list (string * measurement)
}.
End DatasetType.

Module VariableParams.
Record t : Type := mk {
  chunksizes : list Z;
  params : list (string * string)
}.
End VariableParams.

(** What the index and product creation were asked to do, in order. *)
Inductive index_event : Type :=
| GetProduct (name : string)
| GetMetadataType (name : string)
| CreateDatasetType (name : string).

Module StatProduct.
Record t : Type := mk {
  definition : ProductDefinition.t;
  product : DatasetType.t;
  netcdf_var_params : list (string * VariableParams.t)
}.

Definition name (self : t) : string := ProductDefinition.name (definition self).

Definition stat_name (self : t) : string := ProductDefinition.statistic (definition self).

Definition statistic (definition : ProductDefinition.t) : result statistic :=
  getitem STATS (ProductDefinition.statistic definition).

Definition masked (self : t) : result bool :=
  s <- statistic (definition self) ;; Ok (statistic_masked s).

Definition create_netcdf_var_params (definition : ProductDefinition.t)
           (storage : Storage.t) (data_measurements : list measurement)
  : result (list (string * VariableParams.t)) :=
  chunking <- mapM (getitem (Storage.chunking storage)) (Storage.dimension_order storage) ;;
  let standard kv := contains STANDARD_VARIABLE_PARAM_NAMES (fst kv) in
  Ok (fold_left
        (fun variable_params m =>
           let from_definition := filter standard (ProductDefinition.params definition) in
           let updated :=
             fold_left (fun d kv => dict_set d (fst kv) (snd kv))
                       (filter standard (Measurement.extras m)) from_definition in
           dict_set variable_params (Measurement.name m)
                    (VariableParams.mk chunking updated))
        data_measurements []).

Section Create.
(** [DatasetType.validate], the schema check of the datacube library. *)
Variable validate : DatasetType.t -> result unit.

Definition create_product (definition : ProductDefinition.t)
           (metadata_type : option string) (data_measurements : list measurement)
           (storage : Storage.t) : io (list index_event) DatasetType.t :=
  let product_definition :=
    DatasetType.mk metadata_type
                   (ProductDefinition.name definition)
                   ("Description for " ++ ProductDefinition.name definition)
                   (ProductDefinition.statistic definition)
                   storage
                   (dict_of (map (fun m => (Measurement.name m, m)) data_measurements)) in
  lift (validate product_definition) ;;;
  (fun log => (Ok product_definition,
               log ++ [CreateDatasetType (ProductDefinition.name definition)])).

Definition init (metadata_type : option string) (input_measurements : list measurement)
           (definition : ProductDefinition.t) (storage : Storage.t)
  : io (list index_event) t :=
  data_measurements <~ lift (s <- statistic definition ;;
                             statistic_measurements s input_measurements) ;;
  product <~ create_product definition metadata_type data_measurements storage ;;
  netcdf_var_params <~ lift (create_netcdf_var_params definition storage data_measurements) ;;
  ret (mk definition product netcdf_var_params).
End Create.
End StatProduct.

(** [index.products.get_by_name(name)]: [None] for an unknown product. *)
Definition products_get_by_name (index : Index.t) (name : string)
  : io (list index_event) (option (list (string * measurement))) :=
  fun log => (Ok (dict_get (Index.products index) name), log ++ [GetProduct name]).

(** [index.metadata_types.get_by_name(name)] *)
Definition metadata_types_get_by_name (index : Index.t) (name : string)
  : io (list index_event) (option string) :=
  fun log => (Ok (if contains (Index.metadata_types index) name then Some name else None),
              log ++ [GetMetadataType name]).

Definition source_product_measurement_defns (index : Index.t) (sources : list SourceSpec.t)
  : io (list index_event) (list measurement) :=
  match sources with
  | [] => raise IndexError
  | first_source :: _ =>
      if negb (forallb (fun source =>
                          list_eqb String.eqb (SourceSpec.measurements first_source)
                                   (SourceSpec.measurements source))
                       sources)
      then raise (RuntimeError
                    "Configuration Error: listed measurements of source products are not all the same.")
      else
        let source_defn := first_source in
        source_product <~ products_get_by_name index (SourceSpec.product source_defn) ;;
        measurements <~ lift (getattr "measurements" source_product) ;;
        ret (map snd (filter (fun nm => contains (SourceSpec.measurements source_defn) (fst nm))
                             measurements))
  end.

(** [repr] of a list of strings free of quotes and escapes, as ['%s' % names]
    prints it. *)
Definition repr_names (names : list string) : string :=
  ("[" ++ join ", " (map (fun n => "'" ++ n ++ "'") names) ++ "]")%string.

Definition duplicate_names_of (output_names : list string) : list string :=
  filter (fun x => (1 <? count_occ string_dec output_names x)%nat) output_names.

Definition duplicates_message (duplicate_names : list string) : string :=
  ("Output products must all have different names. Duplicates found: "
   ++ repr_names duplicate_names)%string.

Section MakeProducts.
Variable validate : DatasetType.t -> result unit.

Definition make_products (index : Index.t) (config : StatsConfig.t)
  : io (list index_event) (list (string * StatProduct.t)) :=
  let output_names := map ProductDefinition.name (StatsConfig.output_products config) in
  let duplicate_names := duplicate_names_of output_names in
  match duplicate_names with
  | _ :: _ => raise (ConfigurationError [duplicates_message duplicate_names])
  | [] =>
      measurements <~ source_product_measurement_defns index (StatsConfig.sources config) ;;
      fold_left
        (fun (acc : io (list index_event) (list (string * StatProduct.t))) prod =>
           output_products <~ acc ;;
           eo <~ metadata_types_get_by_name index "eo" ;;
           stat <~ StatProduct.init validate eo measurements prod
                                    (StatsConfig.storage config) ;;
           ret (dict_set output_products (ProductDefinition.name prod) stat))
        (StatsConfig.output_products config)
        (ret [])
  end.
End MakeProducts.

(** ** load_data *)

(** [dataset.coords['source'] = ('time', numpy.repeat(idx, dataset.time.size))] *)
Definition tag_source (idx : nat) (dataset : Dataset.t) : Dataset.t :=
  Dataset.mk (Dataset.time dataset)
             (Some (repeat (Z.of_nat idx) (List.length (Dataset.time dataset))))
             (Dataset.npix dataset)
             (Dataset.data_vars dataset)
             (Dataset.crs dataset).

Definition variable_names (d : Dataset.t) : list string :=
  map fst (Dataset.data_vars d).

(** [xarray.concat(datasets, dim='time')] for datasets loaded on one (y, x)
    plane: coordinates and rows are appended in the order of the list, the
    variables and attributes are those of the first dataset, and a variable
    present in some datasets only is an error. *)
Definition concat_time (datasets : list Dataset.t) : result Dataset.t :=
  match datasets with
  | [] => Raise (ValueError "must supply at least one object to concatenate")
  | first :: _ =>
      if negb (forallb (fun d => forallb (contains (variable_names first)) (variable_names d))
                       datasets)
      then Raise (ValueError "variables are present in some datasets but not others")
      else
        vars <- mapM (fun name =>
                        rows <- mapM (fun d =>
                                        match dict_get (Dataset.data_vars d) name with
                                        | Some r => Ok r
                                        | None => Raise (ValueError
                                            "variables are present in some datasets but not others")
                                        end) datasets ;;
                        Ok (name, List.concat rows))
                     (variable_names first) ;;
        Ok (Dataset.mk (List.concat (map Dataset.time datasets))
                       (match mapM (fun d => getattr "source" (Dataset.source d)) datasets with
                        | Ok sources => Some (List.concat sources)
                        | Raise _ => None
                        end)
                       (Dataset.npix first)
                       vars
                       (Dataset.crs first))
  end.

(** [data.isel(time=idx)] *)
Definition isel_time (idx : list nat) (data : Dataset.t) : Dataset.t :=
  Dataset.mk (select idx (Dataset.time data))
             (option_map (select idx) (Dataset.source data))
             (Dataset.npix data)
             (map (fun v => (fst v, select idx (snd v))) (Dataset.data_vars data))
             (Dataset.crs data).

Section Loader.
Variables Slice SourceProd : Type.

(** [load_masked_data]: reading and masking one bundle is the work of the
    datacube library; it returns a dataset or raises. *)
Variable load_masked_data : Slice -> SourceProd -> result Dataset.t.

(** [data.time.argsort()]: numpy's argsort with its default [kind]. *)
Variable argsort : list Z -> list nat.

Definition load_data (sub_tile_slice : Slice) (sources : list SourceProd)
  : result Dataset.t :=
  datasets <- mapM (load_masked_data sub_tile_slice) sources ;;
  let datasets := map (fun id => tag_source (fst id) (snd id)) (enumerate datasets) in
  data <- concat_time datasets ;;
  Ok (isel_time (argsort (Dataset.time data)) data).
End Loader.

(** What numpy documents of [argsort] whatever the [kind]: the indexes are a
    permutation of [0, n) and picking the values in that order sorts them. *)
Definition argsort_contract (argsort : list Z -> list nat) : Prop :=
  forall a, Permutation (argsort a) (seq 0 (List.length a))
            /\ Sorted Z.le (select (argsort a) a).


(** Two total orders on (timestamp, position) pairs, both ascending in the
    timestamp: ties by ascending position, and ties by descending position. *)
Definition leb_ties_ascending (x y : Z * nat) : bool :=
  (fst x <? fst y) || ((fst x =? fst y) && (snd x <=? snd y)%nat).

Definition leb_ties_descending (x y : Z * nat) : bool :=
  (fst x <? fst y) || ((fst x =? fst y) && (snd y <=? snd x)%nat).

Lemma leb_ties_ascending_total :
  forall x y, leb_ties_ascending x y = true \/ leb_ties_ascending y x = true.
Proof.
  intros [v i] [w j]; unfold leb_ties_ascending; simpl.
  destruct (Z.ltb_spec v w), (Z.ltb_spec w v), (Z.eqb_spec v w), (Z.eqb_spec w v),
    (Nat.leb_spec i j), (Nat.leb_spec j i); simpl; auto; lia.
Qed.

Lemma leb_ties_descending_total :
  forall x y, leb_ties_descending x y = true \/ leb_ties_descending y x = true.
Proof.
  intros [v i] [w j]; unfold leb_ties_descending; simpl.
  destruct (Z.ltb_spec v w), (Z.ltb_spec w v), (Z.eqb_spec v w), (Z.eqb_spec w v),
    (Nat.leb_spec i j), (Nat.leb_spec j i); simpl; auto; lia.
Qed.

Module TiesAscending <: TotalLeBool.
Definition t : Type := (Z * nat)%type.
Definition leb : t -> t -> bool := leb_ties_ascending.
Definition leb_total : forall x y, leb x y = true \/ leb y x = true :=
  leb_ties_ascending_total.
End TiesAscending.

Module TiesDescending <: TotalLeBool.
Definition t : Type := (Z * nat)%type.
Definition leb : t -> t -> bool := leb_ties_descending.
Definition leb_total : forall x y, leb x y = true \/ leb y x = true :=
  leb_ties_descending_total.
End TiesDescending.

Module SortAscending := Sort TiesAscending.
Module SortDescending := Sort TiesDescending.


Definition argsort_reversing (a : list Z) : list nat :=
  map snd (SortDescending.sort (combine a (seq 0 (List.length a)))).

(** ** Tasks *)

Module GeoBox.
(** [GeoBox.from_geopolygon] of the region, reprojected to the storage CRS. *)
Record t : Type := mk {
  region : string;
  crs : string
}.
End GeoBox.

Module Tile.
(** A [Tile]: the [time] coordinate of its grouped sources and its geobox. *)
Record t : Type := mk {
  sources_time : list Z;
  geobox : GeoBox.t
}.
End Tile.

Module SourceBundle.
(** An entry of [task.sources]: [{'data': ..., 'masks': ..., 'spec': ...}]. *)
Record t : Type := mk {
  data : Tile.t;
  masks : list Tile.t;
  spec : SourceSpec.t
}.
End SourceBundle.

Module StatsTask.
Record t : Type := mk {
  tile_index : option (Z * Z);
  time_period : Z * Z;
  sources : list SourceBundle.t;
  output_products : list (string * StatProduct.t)
}.

(** [StatsTask(time_period)]: [sources or []] and [output_products or []]
    make fresh empty lists for every task. *)
Definition init (time_period : Z * Z) : t := mk None time_period [] [].

Definition append_source (task : t) (bundle : SourceBundle.t) : t :=
  mk (tile_index task) (time_period task) (sources task ++ [bundle]) (output_products task).
End StatsTask.

Section NonGrid.
(** [date_sequence] of [datacube.utils.dates]: the time periods. *)
Variable date_sequence : Z -> Z -> string -> string -> list (Z * Z).

(** [dc.product_observations] followed by [dc.product_sources]: the [time]
    coordinate of the observations of a product in a period and region,
    grouped by the named key. *)
Variable product_sources : string -> Z * Z -> string -> string -> list Z.

Definition make_tile (config : StatsConfig.t) (region : string)
           (product : string) (time : Z * Z) (group_by_name : string) : Tile.t :=
  let sources := product_sources product time region group_by_name in
  let geobox := GeoBox.mk region (Storage.crs (StatsConfig.storage config)) in
  Tile.mk sources geobox.

(** The body of the loop over [config.sources] for one task. *)
Definition add_source (config : StatsConfig.t) (region : string) (time_period : Z * Z)
           (task : StatsTask.t) (source_spec : SourceSpec.t) : StatsTask.t :=
  let group_by_name :=
    match SourceSpec.group_by source_spec with
    | Some g => g
    | None => DEFAULT_GROUP_BY
    end in
  let data := make_tile config region (SourceSpec.product source_spec)
                        time_period group_by_name in
  let masks := map (fun mask => make_tile config region mask time_period group_by_name)
                   (SourceSpec.masks source_spec) in
  if (List.length (Tile.sources_time data) =? 0)%nat
  then task
  else StatsTask.append_source task (SourceBundle.mk data masks source_spec).

(** The generator, as the list of the tasks it yields in order.  It is used
    when [config.input_region] is set. *)
Definition make_tasks_non_grid (config : StatsConfig.t) (region : string)
  : list StatsTask.t :=
  map (fun time_period =>
         fold_left (add_source config region time_period)
                   (StatsConfig.sources config)
                   (StatsTask.init time_period))
      (date_sequence (StatsConfig.start_time config) (StatsConfig.end_time config)
                     (StatsConfig.stats_duration config) (StatsConfig.step_size config)).
End NonGrid.

(** ** Output drivers and do_stats *)

Inductive driver : Type :=
| NetcdfOutputDriver
| RioOutputDriver.

Definition OUTPUT_DRIVERS : list (string * driver) :=
  [("NetCDF CF", NetcdfOutputDriver); ("Geotiff", RioOutputDriver)].

(** What happened to the output sinks, oldest first.  A sink is numbered
    when it is opened; [var] is [None] for a NetCDF file holding every
    variable of a product. *)
Inductive sink_event : Type :=
| Opened (sink : nat) (prod_name : string) (var : option string)
| Wrote (sink : nat) (var_name : string) (chunk : nat)
| CloseCalled (sink : nat).

Module Env.
(** What the collaborators do during one run: the chunks [tile_iter] yields,
    the variables [stat.compute] returns for a chunk and product, and which
    calls raise ([None]: the call returns). *)
Record t : Type := mk {
  tile_iter : list nat;
  open_raises : string -> option string -> option exn;
  load_data_raises : nat -> option exn;
  compute : nat -> string -> result (list string);
  write_raises : nat -> string -> nat -> option exn;
  close_raises : nat -> option exn
}.
End Env.

Module OutputDriver.
(** The driver object ([self.output_files]: key to sink) and the sinks'
    history. *)
Record t : Type := mk {
  output_files : list (string * nat);
  trace : list sink_event
}.

Definition init : t := mk [] [].

Definition is_opened (e : sink_event) : bool :=
  match e with
  | Opened _ _ _ => true
  | _ => false
  end.

(** The sinks opened so far. *)
Definition opened (trace : list sink_event) : list nat :=
  flat_map (fun e => match e with Opened k _ _ => [k] | _ => [] end) trace.


Definition may_raise (r : option exn) : io t unit :=
  match r with
  | Some e => raise e
  | None => ret tt
  end.

Definition log (e : sink_event) : io t unit :=
  fun self => (Ok tt, mk (output_files self) (trace self ++ [e])).

(** Creating a sink ([create_netcdf_storage_unit], [rasterio.open]): it
    raises, or returns a new open sink. *)
Definition open_sink (env : Env.t) (prod_name : string) (var : option string) : io t nat :=
  may_raise (Env.open_raises env prod_name var) ;;;
  (fun self =>
     let sink := List.length (opened (trace self)) in
     (Ok sink, mk (output_files self) (trace self ++ [Opened sink prod_name var]))).

(** [self.output_files[key] = sink] *)
Definition store (key : string) (sink : nat) : io t unit :=
  fun self => (Ok tt, mk (dict_set (output_files self) key sink) (trace self)).

(** [self.output_files[key]] *)
Definition lookup (key : string) : io t nat :=
  fun self => (getitem (output_files self) key, self).

(** [output_file.close()] *)
Definition close (env : Env.t) (sink : nat) : io t unit :=
  log (CloseCalled sink) ;;;
  may_raise (Env.close_raises env sink).

Definition close_files (env : Env.t) : io t unit :=
  fun self => for_each (map snd (output_files self)) (close env) self.

Definition measurement_names_of (stat : StatProduct.t) : list string :=
  map fst (DatasetType.measurements (StatProduct.product stat)).

Definition open_output_files (env : Env.t) (kind : driver)
           (output_products : list (string * StatProduct.t)) : io t unit :=
  match kind with
  | NetcdfOutputDriver =>
      for_each output_products
               (fun ps => sink <~ open_sink env (fst ps) None ;;
                          store (fst ps) sink)
  | RioOutputDriver =>
      for_each output_products
               (fun ps =>
                  for_each (measurement_names_of (snd ps))
                           (fun measurename =>
                              sink <~ open_sink env (fst ps) (Some measurename) ;;
                              let output_name := (fst ps ++ measurename)%string in
                              store output_name sink))
  end.

(** [_get_dtype]: [self.task.output_products[prod_name].product.measurements[var_name]['dtype']] *)
Definition get_dtype (output_products : list (string * StatProduct.t))
           (prod_name var_name : string) : result string :=
  stat <- getitem output_products prod_name ;;
  m <- getitem (DatasetType.measurements (StatProduct.product stat)) var_name ;;
  Ok (Measurement.dtype m).

Definition write_data (env : Env.t) (kind : driver)
           (output_products : list (string * StatProduct.t))
           (prod_name var_name : string) (chunk : nat) : io t unit :=
  match kind with
  | NetcdfOutputDriver =>
      sink <~ lookup prod_name ;;
      may_raise (Env.write_raises env sink var_name chunk) ;;;
      log (Wrote sink var_name chunk)
  | RioOutputDriver =>
      let output_name := (prod_name ++ var_name)%string in
      lift (get_dtype output_products prod_name var_name) ;;;
      sink <~ lookup output_name ;;
      may_raise (Env.write_raises env sink var_name chunk) ;;;
      log (Wrote sink var_name chunk)
  end.
End OutputDriver.

(** The body of the [with] block of [do_stats]. *)
Definition do_stats_body (env : Env.t) (kind : driver) (task : StatsTask.t)
  : io OutputDriver.t unit :=
  lift (match StatsTask.sources task with
        | example :: _ => Ok (SourceBundle.data example)
        | [] => Raise IndexError
        end) ;;;
  for_each (Env.tile_iter env)
    (fun sub_tile_slice =>
       OutputDriver.may_raise (Env.load_data_raises env sub_tile_slice) ;;;
       for_each (StatsTask.output_products task)
         (fun ps =>
            masked <~ lift (StatProduct.masked (snd ps)) ;;
            (if masked : bool then ret tt else raise AssertionError) ;;;
            stats_data <~ lift (Env.compute env sub_tile_slice (fst ps)) ;;
            for_each stats_data
              (fun var_name =>
                 OutputDriver.write_data env kind (StatsTask.output_products task)
                                         (fst ps) var_name sub_tile_slice))).

Definition do_stats (env : Env.t) (task : StatsTask.t) (config : StatsConfig.t)
  : io OutputDriver.t unit :=
  output_driver <~ lift (getitem OUTPUT_DRIVERS (Storage.driver (StatsConfig.storage config))) ;;
  with_ (OutputDriver.open_output_files env output_driver (StatsTask.output_products task))
        (do_stats_body env output_driver task)
        (OutputDriver.close_files env).


(** The keys under which a driver stores the sinks of a task. *)
Definition sink_keys (kind : driver) (output_products : list (string * StatProduct.t))
  : list string :=
  match kind with
  | NetcdfOutputDriver => map fst output_products
  | RioOutputDriver =>
      flat_map (fun ps => map (fun measurename => (fst ps ++ measurename)%string)
                              (OutputDriver.measurement_names_of (snd ps)))
               output_products
  end.

(** A cell holding the integer code [k], in an integer array or in a float
    array. *)
Inductive is_code : cell -> Z -> Prop :=
| code_int (k : Z) : is_code (I k) k
| code_float (k : Z) : is_code (F (float_of_Z k)) k.

(** The number of cells of a time series that compare equal to [k]. *)
Definition count_code (k : Z) (series : list cell) : Z :=
  sum_bools (map (fun c => cell_eq_scalar c k) series).

(** An array of numbers, as opposed to an array of timestamps. *)
Definition is_values (a : ndarray) : Prop :=
  match a with
  | Values _ => True
  | Datetimes _ => False
  end.

(** A statistic function that selects time index [k] at every pixel of every
    variable. *)
Definition constant_index (k : Z) (data : Dataset.t) : result (list (string * list Z)) :=
  Ok (map (fun v => (fst v, repeat k (Dataset.npix data))) (Dataset.data_vars data)).

(** The [time] coordinate of the observations a source specification finds
    in a period, as [make_tasks_non_grid] queries them. *)
Definition observations_of (product_sources : string -> Z * Z -> string -> string -> list Z)
           (region : string) (time_period : Z * Z) (source_spec : SourceSpec.t) : list Z :=
  product_sources (SourceSpec.product source_spec) time_period region
                  (match SourceSpec.group_by source_spec with
                   | Some g => g
                   | None => DEFAULT_GROUP_BY
                   end).

Definition has_observations (product_sources : string -> Z * Z -> string -> string -> list Z)
           (region : string) (time_period : Z * Z) (source_spec : SourceSpec.t) : bool :=
  negb (List.length (observations_of product_sources region time_period source_spec) =? 0)%nat.

(** The bundles of a task after tagging, and the tags of their time slices
    in concatenation order. *)
Definition tagged (loaded : list Dataset.t) : list Dataset.t :=
  map (fun id => tag_source (fst id) (snd id)) (enumerate loaded).

Definition source_tags (loaded : list Dataset.t) : list Z :=
  List.concat (map (fun id => repeat (Z.of_nat (fst id))
                                     (List.length (Dataset.time (snd id))))
                   (enumerate loaded)).


(** The sinks a driver opens for a task, in order: the key each is stored
    under, the product and, for one file per variable, the variable. *)
Definition opening_plan (kind : driver) (output_products : list (string * StatProduct.t))
  : list (string * (string * option string)) :=
  match kind with
  | NetcdfOutputDriver => map (fun ps => (fst ps, (fst ps, None))) output_products
  | RioOutputDriver =>
      flat_map (fun ps => map (fun measurename =>
                                 ((fst ps ++ measurename)%string,
                                  (fst ps, Some measurename)))
                              (OutputDriver.measurement_names_of (snd ps)))
               output_products
  end.

(** Opening one sink and storing it under its key. *)
Definition open_and_store (env : Env.t) (entry : string * (string * option string))
  : io OutputDriver.t unit :=
  sink <~ OutputDriver.open_sink env (fst (snd entry)) (snd (snd entry)) ;;
  OutputDriver.store (fst entry) sink.



(** The products [make_products] builds for a configuration when the schema
    check accepts every definition (none if it raises). *)
Definition products_of (index : Index.t) (config : StatsConfig.t)
  : list (string * StatProduct.t) :=
  match fst (make_products (fun _ => Ok tt) index config []) with
  | Ok products => products
  | Raise _ => []
  end.

(** An environment in which nothing raises: one chunk, and every statistic
    returns the variables [vars]. *)
Definition quiet_env (vars : list string) : Env.t :=
  Env.mk [0%nat] (fun _ _ => None) (fun _ => None) (fun _ _ => Ok vars)
         (fun _ _ _ => None) (fun _ => None).

(** An index with one source product holding the measurement 'red', a
    configuration over it with the given driver and output products, and a
    task over one bundle of it. *)
Definition red_index : Index.t :=
  Index.mk [("ls8_nbar_albers",
             [("red", Measurement.mk "red" "int16" (PyInt (-999)) "1" [])])]
           ["eo"].

Definition red_config (driver_name : string) (output_products : list ProductDefinition.t)
  : StatsConfig.t :=
  StatsConfig.mk (Storage.mk driver_name "EPSG:3577" [("time", 1); ("y", 200); ("x", 200)]
                             ["time"; "y"; "x"])
                 [SourceSpec.mk "ls8_nbar_albers" ["red"] None []]
                 output_products 0 10 "10d" "10d" "/g/data/stats" None.

Definition red_task (config : StatsConfig.t) : StatsTask.t :=
  StatsTask.mk None (0, 10)
               [SourceBundle.mk (Tile.mk [1; 2; 3] (GeoBox.mk "region" "EPSG:3577")) []
                                (SourceSpec.mk "ls8_nbar_albers" ["red"] None [])]
               (products_of red_index config).

(** Two products in one NetCDF file each. *)
Definition two_netcdf_products : StatsConfig.t :=
  red_config "NetCDF CF"
             [ProductDefinition.mk "red_median" "percentile_50" "median_{time_period}.nc" [];
              ProductDefinition.mk "red_mean" "mean" "mean_{time_period}.nc" []].


(** ** Further definitions used by the properties of Part II *)


(** ** PerStatIndexStat.compute *)

Module PerStatIndex.
(** A [PerStatIndexStat]: [stat_func] takes a dataset and returns one time
    index per pixel, shared by all variables. *)
Record t : Type := mk {
  stat_func : Dataset.t -> result (list Z);
  masked : bool
}.

(** [PerStatIndexStat.compute]: [data.reduce(index_dataset, dim='time')]
    gathers every variable by the index and keeps no attributes; the three
    assignments then add or replace 'observed', 'observed_date' and
    'source'. *)
Definition compute (self : t) (data : Dataset.t) : result Reduced.t :=
  index <- stat_func self data ;;
  data_values <- apply (fun _ var => gathered <- axisindex var index ;; Ok (Values gathered))
                       (Dataset.data_vars data) ;;
  observed <- np_take (Dataset.time data) index ;;
  let data_values := dict_set data_values "observed" (Datetimes observed) in
  let data_values :=
    dict_set data_values "observed_date"
             (Values (map (fun t => I (datetime64_to_inttime t)) observed)) in
  source <- getattr "source" (Dataset.source data) ;;
  tags <- np_take source index ;;
  let data_values := dict_set data_values "source" (Values (map I tags)) in
  Ok (Reduced.mk data_values None).
End PerStatIndex.


(** ** The history of the sinks of do_stats *)



Definition is_close_of (sinks : list nat) (e : sink_event) : Prop :=
  match e with CloseCalled k => In k sinks | _ => False end.




Definition closes_stored (s : OutputDriver.t) (e : sink_event) : Prop :=
  is_close_of (map snd (OutputDriver.output_files s)) e.

(** The key under which [write_data] looks up the sink of a variable. *)
Definition write_key (kind : driver) (prod_name var_name : string) : string :=
  match kind with
  | NetcdfOutputDriver => prod_name
  | RioOutputDriver => (prod_name ++ var_name)%string
  end.

(** The position of the first [key] in [keys]. *)
Fixpoint index_of (keys : list string) (key : string) : nat :=
  match keys with
  | [] => 0%nat
  | k :: rest => if String.eqb k key then 0%nat else S (index_of rest key)
  end.

(** The variables [stat.compute] returns for a chunk and product. *)
Definition computed (env : Env.t) (chunk : nat) (prod_name : string) : list string :=
  match Env.compute env chunk prod_name with
  | Ok vars => vars
  | Raise _ => []
  end.

(** The history of a run in which nothing raises. *)
Definition expected_opens (kind : driver) (output_products : list (string * StatProduct.t))
  : list sink_event :=
  map (fun ie => Opened (fst ie) (fst (snd (snd ie))) (snd (snd (snd ie))))
      (enumerate (opening_plan kind output_products)).

Definition expected_writes (env : Env.t) (kind : driver)
           (output_products : list (string * StatProduct.t)) : list sink_event :=
  flat_map (fun chunk =>
              flat_map (fun ps =>
                          map (fun var_name =>
                                 Wrote (index_of (sink_keys kind output_products)
                                                 (write_key kind (fst ps) var_name))
                                       var_name chunk)
                              (computed env chunk (fst ps)))
                       output_products)
           (Env.tile_iter env).

Definition expected_closes (kind : driver) (output_products : list (string * StatProduct.t))
  : list sink_event :=
  map CloseCalled (seq 0 (List.length (sink_keys kind output_products))).

(** ** What make_products builds *)

(** What the loop of [make_products] asks of the index for one product. *)
Definition product_events (prod : ProductDefinition.t) : list index_event :=
  [GetMetadataType "eo"; CreateDatasetType (ProductDefinition.name prod)].

(** What [make_products] returns for one definition: the product is stored
    under its name and keeps its definition, its statistic is registered and
    masked, the schema check accepted its document, and the document holds
    the measurements the statistic declares for the source measurements. *)
Definition made_from (validate : DatasetType.t -> result unit)
           (measurements : list measurement) (storage : Storage.t)
           (prod : ProductDefinition.t) (entry : string * StatProduct.t) : Prop :=
  fst entry = ProductDefinition.name prod
  /\ StatProduct.definition (snd entry) = prod
  /\ StatProduct.masked (snd entry) = Ok true
  /\ validate (StatProduct.product (snd entry)) = Ok tt
  /\ DatasetType.name (StatProduct.product (snd entry)) = ProductDefinition.name prod
  /\ DatasetType.storage (StatProduct.product (snd entry)) = storage
  /\ exists s data_measurements,
      getitem STATS (ProductDefinition.statistic prod) = Ok s
      /\ statistic_measurements s measurements = Ok data_measurements
      /\ DatasetType.measurements (StatProduct.product (snd entry))
         = dict_of (map (fun m => (Measurement.name m, m)) data_measurements)
      /\ StatProduct.create_netcdf_var_params prod storage data_measurements
         = Ok (StatProduct.netcdf_var_params (snd entry)).

(** The value [_create_netcdf_var_params] leaves under a standard key [k]
    of a variable: the measurement's own setting if it has one, otherwise
    the setting of the product definition. *)
Definition param_of (definition : ProductDefinition.t) (m : measurement) (k : string)
  : option string :=
  if contains STANDARD_VARIABLE_PARAM_NAMES k
  then match dict_get (Measurement.extras m) k with
       | Some v => Some v
       | None => dict_get (ProductDefinition.params definition) k
       end
  else None.

(** ** make_tasks_grid *)

Module GridBundle.
(** An entry of [task.sources] as [make_tasks_grid] builds it: every mask is
    [mask.get(tile_index)], which is [None] where the mask product has no
    tile for the cell. *)
Record t : Type := mk {
  data : Tile.t;
  masks : list (option Tile.t);
  spec : SourceSpec.t
}.
End GridBundle.

Module GridStatsTask.
(** A [StatsTask] whose sources are grid bundles. *)
Record t : Type := mk {
  tile_index : option (Z * Z);
  time_period : Z * Z;
  sources : list GridBundle.t;
  output_products : list (string * StatProduct.t)
}.

(** [StatsTask.__init__(self, time_period, tile_index=None, sources=None,
    output_products=None)] called with two positional arguments. *)
Definition init (time_period : Z * Z) (tile_index : option (Z * Z)) : t :=
  mk tile_index time_period [] [].

Definition append_source (task : t) (bundle : GridBundle.t) : t :=
  mk (tile_index task) (time_period task) (sources task ++ [bundle]) (output_products task).
End GridStatsTask.






Section Grid.
(** [date_sequence] of [datacube.utils.dates]: the time periods. *)
Variable date_sequence : Z -> Z -> string -> string -> list (Z * Z).

(** [workflow.list_cells(product=..., time=..., group_by=...)]: a dict from
    cell index to tile. *)
Variable list_cells : string -> Z * Z -> string -> list ((Z * Z) * Tile.t).





End Grid.

(** * Part II: lemmas and theorems *)

Unset Implicit Arguments.

(** ** Python helpers *)

Lemma contains_In (names : list string) (x : string) :
  contains names x = true <-> In x names.
Proof.
  unfold contains. rewrite existsb_exists. split.
  - intros [y [Hin Heq]]. apply String.eqb_eq in Heq. now subst.
  - intros Hin. exists x. split; [assumption | apply String.eqb_refl].
Qed.

Lemma contains_not_In (names : list string) (x : string) :
  contains names x = false <-> ~ In x names.
Proof.
  rewrite <- contains_In. destruct (contains names x); split; congruence.
Qed.

(** ** Measurement declarations of the statistics *)

(** C10. [WofsStats.measurements] fails its assertion when no input
    measurement is named 'water'; otherwise it returns the three fixed
    declarations count_wet (int16, nodata -1), count_clear (int16, nodata -1)
    and frequency (float32, nodata -1), whatever else the input holds. *)
Theorem wofs_measurements_need_water (input_measurements : list measurement) :
  (~ In "water" (measurement_names input_measurements) ->
   WofsStats.measurements input_measurements = Raise AssertionError)
  /\
  (In "water" (measurement_names input_measurements) ->
   WofsStats.measurements input_measurements
   = Ok [ Measurement.mk "count_wet" "int16" (PyInt (-1)) "1" [];
          Measurement.mk "count_clear" "int16" (PyInt (-1)) "1" [];
          Measurement.mk "frequency" "float32" (PyInt (-1)) "1" [] ]).
Proof.
  unfold WofsStats.measurements. split; intros H.
  - apply contains_not_In in H. now rewrite H.
  - apply contains_In in H. now rewrite H.
Qed.

(** C5. [NormalisedDifferenceStats.measurements] raises a ConfigurationError
    when one of the two bands is missing from the input measurement names;
    with both present it returns one float32 declaration per reduction of
    [self.stats], named [<name>_<stat>], so three for
    ['min', 'mean', 'max']. *)
Theorem nd_measurements_band_check
        (self : NormalisedDifferenceStats.t) (input_measurements : list measurement) :
  let names := measurement_names input_measurements in
  let band1 := NormalisedDifferenceStats.band1 self in
  let band2 := NormalisedDifferenceStats.band2 self in
  (~ (In band1 names /\ In band2 names) ->
   NormalisedDifferenceStats.measurements self input_measurements
   = Raise (ConfigurationError [NormalisedDifferenceStats.missing_band_message;
                                NormalisedDifferenceStats.name self; band1; band2]))
  /\
  (In band1 names /\ In band2 names ->
   exists outputs,
     NormalisedDifferenceStats.measurements self input_measurements = Ok outputs
     /\ List.length outputs = List.length (NormalisedDifferenceStats.stats self)
     /\ (forall i stat,
           nth_error (NormalisedDifferenceStats.stats self) i = Some stat ->
           nth_error outputs i
           = Some (Measurement.mk (NormalisedDifferenceStats.name self ++ "_" ++ stat)
                                  "float32" (PyInt (-1)) "1" []))
     /\ (NormalisedDifferenceStats.stats self = ["min"; "mean"; "max"] ->
         List.length outputs = 3%nat)).
Proof.
  intros names band1 band2. unfold NormalisedDifferenceStats.measurements.
  fold names band1 band2. split.
  - intros Hmiss.
    destruct (contains names band1) eqn:H1; destruct (contains names band2) eqn:H2;
      simpl; try reflexivity.
    exfalso. apply Hmiss. split; now apply contains_In.
  - intros [H1 H2]. apply contains_In in H1, H2. rewrite H1, H2. simpl.
    eexists. split; [reflexivity |]. split; [apply length_map |]. split.
    + intros i stat Hi. rewrite nth_error_map, Hi. reflexivity.
    + intros Hs. rewrite length_map, Hs. reflexivity.
Qed.

(** The constructor keeps a non-empty list of reductions and replaces a
    missing or empty one by the default. *)
Lemma nd_init_stats (band1 band2 name : string) (stats : option (list string))
      (masked : bool) :
  NormalisedDifferenceStats.stats (NormalisedDifferenceStats.init band1 band2 name stats masked)
  = match stats with
    | Some (s :: rest) => s :: rest
    | _ => ["min"; "max"; "mean"]
    end.
Proof. destruct stats as [[| s rest] |]; reflexivity. Qed.

(** The registered band-ratio statistics declare three outputs each. *)
Example ndvi_stats_outputs :
  statistic_measurements
    (NormalisedDifferenceStatistic
       (NormalisedDifferenceStats.init "nir" "red" "ndvi" (Some ["min"; "mean"; "max"]) true))
    [ Measurement.mk "red" "int16" (PyInt (-999)) "1" [];
      Measurement.mk "nir" "int16" (PyInt (-999)) "1" [] ]
  = Ok [ Measurement.mk "ndvi_min" "float32" (PyInt (-1)) "1" [];
         Measurement.mk "ndvi_mean" "float32" (PyInt (-1)) "1" [];
         Measurement.mk "ndvi_max" "float32" (PyInt (-1)) "1" [] ].
Proof. reflexivity. Qed.

(** C2, as stated, fails: for one input measurement 'red' the second
    declaration is 'red_observed', not 'red_source'. *)
Lemma per_band_measurements_not_as_specified :
  let red := Measurement.mk "red" "int16" (PyInt (-999)) "1" [] in
  measurement_names (PerBandIndexStat.measurements [red])
  = ["red"; "red_observed"; "red_source"; "red_observed_date"]
  /\ measurement_names (PerBandIndexStat.measurements_as_specified [red])
     = ["red"; "red_source"; "red_observed"; "red_observed_date"]
  /\ PerBandIndexStat.measurements [red]
     <> PerBandIndexStat.measurements_as_specified [red].
Proof.
  simpl. repeat split. discriminate.
Qed.

(** C2, amended. For N input measurements [PerBandIndexStat.measurements]
    returns 4*N declarations: the N base declarations (name, dtype, nodata
    and units of the input), then the N [<name>_observed], then the N
    [<name>_source], then the N [<name>_observed_date], each block in input
    order. *)
Theorem per_band_measurements_order (input_measurements : list measurement) :
  let outputs := PerBandIndexStat.measurements input_measurements in
  let N := List.length input_measurements in
  List.length outputs = (4 * N)%nat
  /\ forall i m,
      nth_error input_measurements i = Some m ->
      nth_error outputs i
      = Some (Measurement.mk (Measurement.name m) (Measurement.dtype m)
                             (Measurement.nodata m) (Measurement.units m) [])
      /\ nth_error outputs (N + i)
         = Some (Measurement.mk (Measurement.name m ++ "_observed") "float64" (PyInt 0)
                                "seconds since 1970-01-01 00:00:00" [])
      /\ nth_error outputs (2 * N + i)
         = Some (Measurement.mk (Measurement.name m ++ "_source") "int8" (PyInt (-1)) "1" [])
      /\ nth_error outputs (3 * N + i)
         = Some (Measurement.mk (Measurement.name m ++ "_observed_date") "int32" (PyInt 0)
                                "Date as YYYYMMDD" []).
Proof.
  intros outputs N. subst outputs N.
  unfold PerBandIndexStat.measurements, ValueStat.measurements.
  split.
  - rewrite !length_app, !length_map. lia.
  - intros i m Hi.
    assert (Hlt : (i < List.length input_measurements)%nat)
      by (apply nth_error_Some; congruence).
    repeat split.
    + rewrite nth_error_app1 by (rewrite length_map; exact Hlt).
      rewrite nth_error_map, Hi. reflexivity.
    + rewrite nth_error_app2 by (rewrite length_map; lia).
      rewrite length_map.
      rewrite nth_error_app1 by (rewrite length_map; lia).
      rewrite nth_error_map.
      replace (_ + i - _)%nat with i by lia. rewrite Hi. reflexivity.
    + rewrite nth_error_app2 by (rewrite length_map; lia).
      rewrite length_map.
      rewrite nth_error_app2 by (rewrite length_map; lia).
      rewrite length_map.
      rewrite nth_error_app1 by (rewrite length_map; lia).
      rewrite nth_error_map.
      replace (_ + i - _ - _)%nat with i by lia. rewrite Hi. reflexivity.
    + rewrite nth_error_app2 by (rewrite length_map; lia).
      rewrite length_map.
      rewrite nth_error_app2 by (rewrite length_map; lia).
      rewrite length_map.
      rewrite nth_error_app2 by (rewrite length_map; lia).
      rewrite length_map.
      rewrite nth_error_map.
      replace (_ + i - _ - _ - _)%nat with i by lia. rewrite Hi. reflexivity.
Qed.

(** ** The calendar and [datetime64_to_inttime] *)






















(** 1999-12-31T23:59:59.999999999, the last nanosecond of that day, and
    the last nanosecond before the epoch. *)
Example datetime64_to_inttime_examples :
  datetime64_to_inttime 946684799999999999 = 19991231
  /\ datetime64_to_inttime (-1) = 19691231
  /\ days_from_civil 2016 9 29 * ns_per_day = 1475107200000000000
  /\ calendar_fields 946684799999999999 = (1999, 12, 31).
Proof. vm_compute. repeat split; reflexivity. Qed.

(** ** WofsStats.compute *)

Lemma reduce_time_nth {A B : Type} (npix : nat) (f : list A -> B)
      (rows : list (list A)) (p : nat) :
  (p < npix)%nat ->
  nth_error (reduce_time npix f rows) p = Some (f (column p rows)).
Proof.
  intros Hp. unfold reduce_time.
  rewrite nth_error_map, nth_error_seq.
  destruct (Nat.ltb_spec p npix); [reflexivity | lia].
Qed.

Lemma zip_with_nth {A B C : Type} (f : A -> B -> C) (xs : list A) (ys : list B)
      (p : nat) (a : A) (b : B) :
  nth_error xs p = Some a -> nth_error ys p = Some b ->
  nth_error (zip_with f xs ys) p = Some (f a b).
Proof.
  revert ys p. induction xs as [| x xs IH]; intros ys p Ha Hb.
  - destruct p; discriminate.
  - destruct ys as [| y ys]; [destruct p; discriminate |].
    destruct p as [| p]; simpl in *.
    + injection Ha as ->. injection Hb as ->. reflexivity.
    + apply IH; assumption.
Qed.

(** Pixel by pixel, [count_wet] counts the codes equal to 128, [count_clear]
    adds the count of codes equal to 0, and [frequency] divides the first by
    the second. *)
Lemma wofs_compute_pixel (data : Dataset.t) (water : list (list cell)) (crs : string) :
  dict_get (Dataset.data_vars data) "water" = Some water ->
  Dataset.crs data = Some crs ->
  exists wet clear frequency,
    WofsStats.compute data
    = Ok (Reduced.mk [("count_wet", Values (map I wet));
                      ("count_clear", Values (map I clear));
                      ("frequency", Values (map F frequency))] (Some crs))
    /\ forall p, (p < Dataset.npix data)%nat ->
         let series := column p water in
         nth_error wet p = Some (count_code 128 series)
         /\ nth_error clear p = Some (count_code 128 series + count_code 0 series)
         /\ nth_error frequency p
            = Some (true_divide (count_code 128 series)
                                (count_code 128 series + count_code 0 series)).
Proof.
  intros Hwater Hcrs. unfold WofsStats.compute. rewrite Hwater, Hcrs. simpl.
  eexists _, _, _. split; [reflexivity |].
  intros p Hp. cbv zeta. set (series := column p water).
  assert (Hwet : forall k,
             nth_error (reduce_time (Dataset.npix data)
                          (fun s => sum_bools (map (fun c => cell_eq_scalar c k) s)) water) p
             = Some (count_code k series))
    by (intros k; now rewrite reduce_time_nth).
  split; [apply Hwet |].
  assert (Hclear : nth_error
                     (zip_with Z.add
                        (reduce_time (Dataset.npix data)
                           (fun s => sum_bools (map (fun c => cell_eq_scalar c 128) s)) water)
                        (reduce_time (Dataset.npix data)
                           (fun s => sum_bools (map (fun c => cell_eq_scalar c 0) s)) water)) p
                   = Some (count_code 128 series + count_code 0 series))
    by (apply zip_with_nth; apply Hwet).
  split; [exact Hclear |].
  apply zip_with_nth; [apply Hwet | exact Hclear].
Qed.

Lemma count_code_wet_dry (c0 c1 c2 c3 : cell) :
  is_code c0 128 -> is_code c1 0 -> is_code c2 128 -> is_code c3 0 ->
  count_code 128 [c0; c1; c2; c3] = 2 /\ count_code 0 [c0; c1; c2; c3] = 2.
Proof.
  intros H0 H1 H2 H3. inversion H0; inversion H1; inversion H2; inversion H3;
    subst; vm_compute; split; reflexivity.
Qed.

(** C6. At a pixel whose water codes over four time steps are
    128, 0, 128, 0 (held as integers or as floats), [WofsStats.compute]
    yields count_wet = 2, count_clear = 4 and frequency = 0.5. *)
Theorem wofs_compute_wet_dry_wet_dry
        (data : Dataset.t) (r0 r1 r2 r3 : list cell) (crs : string)
        (p : nat) (c0 c1 c2 c3 : cell) :
  dict_get (Dataset.data_vars data) "water" = Some [r0; r1; r2; r3] ->
  Dataset.crs data = Some crs ->
  (p < Dataset.npix data)%nat ->
  nth_error r0 p = Some c0 -> nth_error r1 p = Some c1 ->
  nth_error r2 p = Some c2 -> nth_error r3 p = Some c3 ->
  is_code c0 128 -> is_code c1 0 -> is_code c2 128 -> is_code c3 0 ->
  exists result count_wet count_clear frequency,
    WofsStats.compute data = Ok result
    /\ dict_get (Reduced.data_vars result) "count_wet" = Some (Values count_wet)
    /\ dict_get (Reduced.data_vars result) "count_clear" = Some (Values count_clear)
    /\ dict_get (Reduced.data_vars result) "frequency" = Some (Values frequency)
    /\ nth_error count_wet p = Some (I 2)
    /\ nth_error count_clear p = Some (I 4)
    /\ nth_error frequency p = Some (F 0.5%float).
Proof.
  intros Hwater Hcrs Hp Hr0 Hr1 Hr2 Hr3 H0 H1 H2 H3.
  destruct (wofs_compute_pixel data _ crs Hwater Hcrs)
    as (wet & clear & frequency & Hcompute & Hpixel).
  destruct (Hpixel p Hp) as (Hwet & Hclear & Hfreq).
  assert (Hcol : column p [r0; r1; r2; r3] = [c0; c1; c2; c3])
    by (unfold column; simpl; now rewrite Hr0, Hr1, Hr2, Hr3).
  cbv zeta in Hwet, Hclear, Hfreq. rewrite Hcol in Hwet, Hclear, Hfreq.
  destruct (count_code_wet_dry c0 c1 c2 c3 H0 H1 H2 H3) as [E128 E0].
  rewrite E128 in Hwet, Hclear, Hfreq. rewrite E0 in Hclear, Hfreq.
  eexists _, _, _, _. split; [exact Hcompute |]. simpl.
  repeat (split; [reflexivity |]).
  rewrite !nth_error_map, Hwet, Hclear, Hfreq. simpl.
  repeat split.
Qed.

(** One pixel, integer codes. *)
Lemma wofs_compute_wet_dry_wet_dry_witness :
  let data := Dataset.mk [0; 1; 2; 3] None 1
                         [("water", [[I 128]; [I 0]; [I 128]; [I 0]])]
                         (Some "EPSG:3577") in
  exists result count_wet count_clear frequency,
    WofsStats.compute data = Ok result
    /\ dict_get (Reduced.data_vars result) "count_wet" = Some (Values count_wet)
    /\ dict_get (Reduced.data_vars result) "count_clear" = Some (Values count_clear)
    /\ dict_get (Reduced.data_vars result) "frequency" = Some (Values frequency)
    /\ nth_error count_wet 0 = Some (I 2)
    /\ nth_error count_clear 0 = Some (I 4)
    /\ nth_error frequency 0 = Some (F 0.5%float).
Proof.
  intros data.
  apply (wofs_compute_wet_dry_wet_dry data [I 128] [I 0] [I 128] [I 0] "EPSG:3577"
           0%nat (I 128) (I 0) (I 128) (I 0));
    try reflexivity; try constructor.
Defined.

(** Float codes give the same counts, and a masked (NaN) time step counts
    neither as wet nor as dry. *)
Example wofs_compute_float_codes :
  WofsStats.compute
    (Dataset.mk [0; 1; 2; 3; 4] None 1
                [("water", [[F 128%float]; [F 0%float]; [F 128%float]; [F 0%float];
                            [F PrimFloat.nan]])]
                (Some "EPSG:3577"))
  = Ok (Reduced.mk [("count_wet", Values [I 2]);
                    ("count_clear", Values [I 4]);
                    ("frequency", Values [F 0.5%float])]
                   (Some "EPSG:3577")).
Proof. vm_compute. reflexivity. Qed.

(** ** PerBandIndexStat.compute *)

Lemma mapM_Forall {A B : Type} (f : A -> result B) (P : B -> Prop) (xs : list A)
      (ys : list B) :
  (forall x y, f x = Ok y -> P y) ->
  mapM f xs = Ok ys -> Forall P ys.
Proof.
  intros Hf. revert ys. induction xs as [| x xs IH]; intros ys H; simpl in H.
  - injection H as <-. constructor.
  - destruct (f x) as [y |] eqn:Hx; simpl in H; [| discriminate].
    destruct (mapM f xs) as [ys' |] eqn:Hxs; simpl in H; [| discriminate].
    injection H as <-. constructor; [eapply Hf; eassumption | now apply IH].
Qed.

Lemma apply_Forall {A B : Type} (f : string -> A -> result B) (P : B -> Prop)
      (vars : list (string * A)) (out : list (string * B)) :
  (forall n a b, f n a = Ok b -> P b) ->
  apply f vars = Ok out -> Forall (fun v => P (snd v)) out.
Proof.
  intros Hf. unfold apply. apply mapM_Forall.
  intros [n a] [n' b] H. simpl in H.
  destruct (f n a) as [b' |] eqn:Hb; simpl in H; [| discriminate].
  injection H as <- <-. simpl. eapply Hf; eassumption.
Qed.

Lemma rename_suffix_Forall {A : Type} (P : A -> Prop) (suffix : string)
      (vars : list (string * A)) :
  Forall (fun v => P (snd v)) vars ->
  Forall (fun v => P (snd v)) (rename_suffix suffix vars).
Proof.
  unfold rename_suffix. intros H. apply Forall_map. simpl.
  eapply Forall_impl; [| exact H]. auto.
Qed.

Lemma merge_into_Forall (P : ndarray -> Prop) (vars acc out : list (string * ndarray)) :
  Forall (fun v => P (snd v)) acc ->
  Forall (fun v => P (snd v)) vars ->
  merge_into acc vars = Ok out ->
  Forall (fun v => P (snd v)) out.
Proof.
  revert acc. induction vars as [| [name a] rest IH]; intros acc Hacc Hvars H; simpl in H.
  - now injection H as <-.
  - inversion Hvars as [| ? ? Ha Hrest]; subst.
    destruct (dict_get acc name) as [b |].
    + destruct (ndarray_equals a b); [| discriminate]. now apply (IH acc).
    + apply (IH (acc ++ [(name, a)])); try assumption.
      apply Forall_app. split; [assumption | now constructor].
Qed.

Lemma merge_Forall (P : ndarray -> Prop) (datasets : list (list (string * ndarray)))
      (acc out : list (string * ndarray)) :
  Forall (fun v => P (snd v)) acc ->
  Forall (Forall (fun v => P (snd v))) datasets ->
  merge datasets acc = Ok out ->
  Forall (fun v => P (snd v)) out.
Proof.
  revert acc. induction datasets as [| ds rest IH]; intros acc Hacc Hds H; simpl in H.
  - now injection H as <-.
  - inversion Hds as [| ? ? Hd Hrest]; subst.
    destruct (merge_into acc ds) as [acc' |] eqn:Hm; simpl in H; [| discriminate].
    apply (IH acc'); try assumption.
    exact (merge_into_Forall P ds acc acc' Hacc Hd Hm).
Qed.

(** Whatever the index function and the data, no variable of the dataset
    [PerBandIndexStat.compute] returns holds timestamps: the dataset of
    observed timestamps is not among the three that are merged. *)
Lemma per_band_compute_no_timestamps (self : PerBandIndexStat.t) (data : Dataset.t)
      (out : Reduced.t) :
  PerBandIndexStat.compute self data = Ok out ->
  Forall (fun v => is_values (snd v)) (Reduced.data_vars out).
Proof.
  unfold PerBandIndexStat.compute. intros H.
  destruct (PerBandIndexStat.stat_func self data) as [index |]; cbn [bind] in H; [| discriminate].
  destruct (apply (PerBandIndexStat.index_dataset data) index) as [data_values |] eqn:Hdv;
    cbn [bind] in H; [| discriminate].
  destruct (apply (PerBandIndexStat.index_time data) index) as [observed |];
    cbn [bind] in H; [| discriminate].
  destruct (apply PerBandIndexStat.inttime_of (rename_suffix "_observed" observed))
    as [text_values |] eqn:Htv; cbn [bind] in H; [| discriminate].
  destruct (apply (PerBandIndexStat.index_source data) index) as [source_values |] eqn:Hsv;
    cbn [bind] in H; [| discriminate].
  destruct (merge _ _) as [vars |] eqn:Hmerge; cbn [bind] in H; [| discriminate].
  injection H as <-. simpl.
  eapply merge_Forall; [constructor | | exact Hmerge].
  repeat constructor.
  - eapply apply_Forall; [| exact Hdv].
    intros n a b Hb. unfold PerBandIndexStat.index_dataset in Hb.
    destruct (getitem _ _); simpl in Hb; [| discriminate].
    destruct (axisindex _ _); simpl in Hb; [| discriminate].
    now injection Hb as <-.
  - apply rename_suffix_Forall. eapply apply_Forall; [| exact Hsv].
    intros n a b Hb. unfold PerBandIndexStat.index_source in Hb.
    destruct (getattr _ _); simpl in Hb; [| discriminate].
    destruct (np_take _ _); simpl in Hb; [| discriminate].
    now injection Hb as <-.
  - apply rename_suffix_Forall. eapply apply_Forall; [| exact Htv].
    intros n a b Hb. destruct a; simpl in Hb; [discriminate |].
    now injection Hb as <-.
Qed.

(** C1, evaluated. One variable 'red' over three time steps and two pixels,
    with the index function selecting time step 1: the result holds 'red',
    'red_source' and 'red_observed_date', all gathered at time step 1, and
    no 'red_observed'. 2016-09-29T00:00:00 is 1475107200 s after the epoch. *)
Theorem per_band_compute_drops_observed :
  let data :=
    Dataset.mk [1475020800000000000; 1475107200000000000; 1475193600000000000]
               (Some [0; 1; 0]) 2
               [("red", [[I 10; I 11]; [I 20; I 21]; [I 30; I 31]])]
               (Some "EPSG:3577") in
  let self := PerBandIndexStat.mk (constant_index 1) true in
  exists out,
    PerBandIndexStat.compute self data = Ok out
    /\ Reduced.data_vars out
       = [("red", Values [I 20; I 21]);
          ("red_source", Values [I 1; I 1]);
          ("red_observed_date", Values [I 20160929; I 20160929])]
    /\ dict_get (Reduced.data_vars out) "red_observed" = None
    /\ contains (measurement_names
                   (PerBandIndexStat.measurements
                      [Measurement.mk "red" "int16" (PyInt (-999)) "1" []]))
                "red_observed" = true.
Proof.
  intros data self. eexists. split; [vm_compute; reflexivity |].
  repeat split.
Qed.

(** ** make_products *)

Lemma duplicate_names_of_In (output_names : list string) (name : string) :
  In name (duplicate_names_of output_names)
  <-> (2 <= count_occ string_dec output_names name)%nat.
Proof.
  unfold duplicate_names_of. rewrite filter_In. split.
  - intros [_ H]. apply Nat.ltb_lt in H. lia.
  - intros H. split.
    + apply (count_occ_In string_dec). lia.
    + apply Nat.ltb_lt. lia.
Qed.

(** C8. When two or more output-product definitions share a name,
    [make_products] raises a ConfigurationError whose message lists the
    duplicated names, and it does so without having asked the index for
    anything or created any product: the log of index events is unchanged. *)
Theorem make_products_rejects_duplicates
        (validate : DatasetType.t -> result unit) (index : Index.t)
        (config : StatsConfig.t) (log : list index_event) (name : string) :
  let output_names := map ProductDefinition.name (StatsConfig.output_products config) in
  (2 <= count_occ string_dec output_names name)%nat ->
  make_products validate index config log
  = (Raise (ConfigurationError [duplicates_message (duplicate_names_of output_names)]), log)
  /\ In name (duplicate_names_of output_names)
  /\ (forall other, In other (duplicate_names_of output_names)
                    <-> (2 <= count_occ string_dec output_names other)%nat).
Proof.
  intros output_names Hdup.
  assert (Hin : In name (duplicate_names_of output_names))
    by now apply duplicate_names_of_In.
  split; [| split; [exact Hin | intros other; apply duplicate_names_of_In]].
  unfold make_products. fold output_names.
  destruct (duplicate_names_of output_names) as [| d rest]; [contradiction |].
  reflexivity.
Qed.

(** Two products named 'ndvi'. *)
Lemma make_products_rejects_duplicates_witness :
  let storage := Storage.mk "NetCDF CF" "EPSG:3577" [("time", 1); ("y", 200); ("x", 200)]
                            ["time"; "y"; "x"] in
  let config :=
    StatsConfig.mk storage
                   [SourceSpec.mk "ls8_nbar_albers" ["red"; "nir"] None []]
                   [ProductDefinition.mk "ndvi" "ndvi_stats" "ndvi_{time_period}.nc" [];
                    ProductDefinition.mk "ndvi" "percentile_10" "p10_{time_period}.nc" []]
                   0 1 "3m" "3m" "/tmp" None in
  let index := Index.mk [] ["eo"] in
  make_products (fun _ => Ok tt) index config []
  = (Raise (ConfigurationError
              ["Output products must all have different names. Duplicates found: ['ndvi', 'ndvi']"]),
     []).
Proof.
  intros storage config index.
  destruct (make_products_rejects_duplicates (fun _ => Ok tt) index config [] "ndvi")
    as (Hraise & _).
  - simpl. lia.
  - exact Hraise.
Defined.

(** With distinct names the products are created, after the index was asked
    for the source product and the metadata type. *)
Example make_products_distinct_names :
  let storage := Storage.mk "NetCDF CF" "EPSG:3577" [("time", 1); ("y", 200); ("x", 200)]
                            ["time"; "y"; "x"] in
  let water := Measurement.mk "water" "uint8" (PyInt 1) "1" [] in
  let config :=
    StatsConfig.mk storage
                   [SourceSpec.mk "wofs_albers" ["water"] None []]
                   [ProductDefinition.mk "wofs_summary" "wofs" "wofs_{time_period}.nc" [];
                    ProductDefinition.mk "water_max" "max" "max_{time_period}.nc" []]
                   0 1 "3m" "3m" "/tmp" None in
  let index := Index.mk [("wofs_albers", [("water", water)])] ["eo"] in
  exists products,
    make_products (fun _ => Ok tt) index config []
    = (Ok products,
       [GetProduct "wofs_albers";
        GetMetadataType "eo"; CreateDatasetType "wofs_summary";
        GetMetadataType "eo"; CreateDatasetType "water_max"])
    /\ map fst products = ["wofs_summary"; "water_max"].
Proof. eexists. split; reflexivity. Qed.

(** ** make_tasks_non_grid *)

Lemma add_source_fold
      (product_sources : string -> Z * Z -> string -> string -> list Z)
      (config : StatsConfig.t) (region : string) (time_period : Z * Z)
      (specs : list SourceSpec.t) (task : StatsTask.t) :
  let final := fold_left (add_source product_sources config region time_period) specs task in
  StatsTask.time_period final = StatsTask.time_period task
  /\ map SourceBundle.spec (StatsTask.sources final)
     = map SourceBundle.spec (StatsTask.sources task)
       ++ filter (has_observations product_sources region time_period) specs
  /\ (forall bundle, In bundle (StatsTask.sources final) ->
                     In bundle (StatsTask.sources task)
                     \/ (In (SourceBundle.spec bundle) specs
                         /\ Tile.sources_time (SourceBundle.data bundle)
                            = observations_of product_sources region time_period
                                              (SourceBundle.spec bundle)
                         /\ Tile.sources_time (SourceBundle.data bundle) <> [])).
Proof.
  revert task. induction specs as [| spec specs IH]; intros task; cbv zeta.
  - simpl. rewrite app_nil_r. auto.
  - simpl fold_left.
    destruct (IH (add_source product_sources config region time_period task spec))
      as (Htime & Hspecs & Hin).
    unfold add_source in Htime, Hspecs, Hin |- *. cbv zeta in *.
    unfold has_observations, observations_of, make_tile in *. simpl filter.
    simpl Tile.sources_time in *.
    set (observed := product_sources (SourceSpec.product spec) time_period region
                       match SourceSpec.group_by spec with
                       | Some g => g
                       | None => DEFAULT_GROUP_BY
                       end) in *.
    destruct (List.length observed =? 0)%nat eqn:Hlen; simpl negb.
    + split; [exact Htime |]. split; [exact Hspecs |].
      intros bundle Hb. destruct (Hin bundle Hb) as [H | (H1 & H2 & H3)]; [now left |].
      right. split; [now right | split; assumption].
    + split; [exact Htime |]. split.
      * rewrite Hspecs. simpl. rewrite map_app, <- app_assoc. reflexivity.
      * intros bundle Hb. destruct (Hin bundle Hb) as [H | (H1 & H2 & H3)].
        -- simpl in H. apply in_app_or in H. destruct H as [H | [<- | []]]; [now left |].
           right. simpl. split; [now left |]. split; [reflexivity |].
           fold observed. intros Hnil. rewrite Hnil in Hlen. discriminate.
        -- right. split; [now right | split; assumption].
Qed.

(** C9. In region mode one task is emitted per time period, in order, and
    its source list holds, in configured order, exactly the configured source
    specifications that have at least one time observation in that period:
    a bundle is left out if and only if it has none, so the task's sources
    are a sublist of the configured sources. *)
Theorem make_tasks_non_grid_sources
        (date_sequence : Z -> Z -> string -> string -> list (Z * Z))
        (product_sources : string -> Z * Z -> string -> string -> list Z)
        (config : StatsConfig.t) (region : string) :
  let periods := date_sequence (StatsConfig.start_time config) (StatsConfig.end_time config)
                               (StatsConfig.stats_duration config)
                               (StatsConfig.step_size config) in
  let tasks := make_tasks_non_grid date_sequence product_sources config region in
  List.length tasks = List.length periods
  /\ map StatsTask.time_period tasks = periods
  /\ forall k task,
      nth_error tasks k = Some task ->
      let kept := map SourceBundle.spec (StatsTask.sources task) in
      kept = filter (has_observations product_sources region (StatsTask.time_period task))
                    (StatsConfig.sources config)
      /\ (forall spec, In spec (StatsConfig.sources config) ->
                       (~ In spec kept
                        <-> List.length (observations_of product_sources region
                                           (StatsTask.time_period task) spec) = 0%nat))
      /\ incl kept (StatsConfig.sources config)
      /\ (forall bundle, In bundle (StatsTask.sources task) ->
                         Tile.sources_time (SourceBundle.data bundle) <> []).
Proof.
  intros periods tasks. subst tasks. unfold make_tasks_non_grid. fold periods.
  split; [apply length_map |]. split.
  - rewrite map_map. rewrite <- (map_id periods) at 2. apply map_ext.
    intros period.
    now destruct (add_source_fold product_sources config region period
                    (StatsConfig.sources config) (StatsTask.init period)) as (-> & _).
  - intros k task Hk. rewrite nth_error_map in Hk.
    destruct (nth_error periods k) as [period |]; [| discriminate].
    injection Hk as <-.
    destruct (add_source_fold product_sources config region period
                (StatsConfig.sources config) (StatsTask.init period))
      as (Htime & Hspecs & Hin).
    cbv zeta. rewrite Htime, Hspecs. simpl.
    split; [reflexivity |]. split; [| split].
    + intros spec Hspec. rewrite filter_In. unfold has_observations.
      destruct (Nat.eqb_spec (List.length (observations_of product_sources region period spec)) 0)
        as [H0 | Hn0]; simpl.
      * split; [intros _; exact H0 | intros _ [_ Hf]; discriminate].
      * split; [| intros H; contradiction].
        intros H. exfalso. apply H. split; [exact Hspec | reflexivity].
    + intros spec Hspec. apply filter_In in Hspec. tauto.
    + intros bundle Hb. destruct (Hin bundle Hb) as [[] | (_ & _ & H)]. exact H.
Qed.

(** Two configured sources, one of them without observations in the second
    period. *)
Example make_tasks_non_grid_skips_empty :
  let ls7 := SourceSpec.mk "ls7_nbar_albers" ["red"] None [] in
  let ls8 := SourceSpec.mk "ls8_nbar_albers" ["red"] None ["ls8_pq_albers"] in
  let config :=
    StatsConfig.mk (Storage.mk "Geotiff" "EPSG:3577" [("x", 200); ("y", 200)] ["y"; "x"])
                   [ls7; ls8] [] 0 20 "10d" "10d" "/tmp" (Some "region") in
  let date_sequence (_ _ : Z) (_ _ : string) := [(0, 10); (10, 20)] in
  let product_sources (product : string) (period : Z * Z) (_ _ : string) :=
    if String.eqb product "ls7_nbar_albers" && (fst period =? 10) then []
    else [fst period + 1; fst period + 2] in
  map (fun task => (StatsTask.time_period task,
                    map SourceBundle.spec (StatsTask.sources task)))
      (make_tasks_non_grid date_sequence product_sources config "region")
  = [((0, 10), [ls7; ls8]); ((10, 20), [ls8])].
Proof. reflexivity. Qed.

(** ** load_data *)

Lemma mapM_total {A B : Type} (f : A -> result B) (g : A -> B) (xs : list A) :
  (forall x, In x xs -> f x = Ok (g x)) -> mapM f xs = Ok (map g xs).
Proof.
  induction xs as [| x xs IH]; intros H; simpl; [reflexivity |].
  rewrite (H x (or_introl eq_refl)). simpl.
  rewrite IH by (intros y Hy; apply H; now right). reflexivity.
Qed.





Lemma tagged_times (loaded : list Dataset.t) :
  map Dataset.time (tagged loaded) = map Dataset.time loaded.
Proof.
  unfold tagged, enumerate. generalize 0%nat.
  induction loaded as [| d ds IH]; intros start; simpl; [reflexivity |].
  now rewrite IH.
Qed.

Lemma tagged_sources (loaded : list Dataset.t) :
  mapM (fun d => getattr "source" (Dataset.source d)) (tagged loaded)
  = Ok (map (fun id => repeat (Z.of_nat (fst id)) (List.length (Dataset.time (snd id))))
            (enumerate loaded)).
Proof.
  unfold tagged, enumerate. generalize 0%nat.
  induction loaded as [| d ds IH]; intros start; simpl; [reflexivity |].
  now rewrite IH.
Qed.

Lemma concat_time_coords (datasets : list Dataset.t) (whole : Dataset.t) :
  concat_time datasets = Ok whole ->
  Dataset.time whole = List.concat (map Dataset.time datasets)
  /\ Dataset.source whole
     = match mapM (fun d => getattr "source" (Dataset.source d)) datasets with
       | Ok sources => Some (List.concat sources)
       | Raise _ => None
       end.
Proof.
  unfold concat_time. destruct datasets as [| first rest]; [discriminate |].
  destruct (negb _); [discriminate |].
  destruct (mapM _ (variable_names first)) as [vars |]; simpl; [| discriminate].
  intros H. injection H as <-. simpl. split; reflexivity.
Qed.


(** *** Sorts that meet numpy's contract *)

Lemma map_snd_combine_seq {A : Type} (a : list A) (start : nat) :
  map snd (combine a (seq start (List.length a))) = seq start (List.length a).
Proof.
  revert start. induction a as [| x xs IH]; intros start; simpl; [reflexivity |].
  now rewrite IH.
Qed.

Lemma combine_seq_index {A : Type} (pre a : list A) :
  Forall (fun vi => nth_error (pre ++ a) (snd vi) = Some (fst vi))
         (combine a (seq (List.length pre) (List.length a))).
Proof.
  revert pre. induction a as [| x xs IH]; intros pre; simpl; constructor.
  - simpl. rewrite nth_error_app2 by lia. now rewrite Nat.sub_diag.
  - specialize (IH (pre ++ [x])). rewrite <- app_assoc, length_app in IH. simpl in IH.
    now rewrite Nat.add_1_r in IH.
Qed.

Lemma select_map_snd {A : Type} (a : list A) (pairs : list (A * nat)) :
  Forall (fun vi => nth_error a (snd vi) = Some (fst vi)) pairs ->
  select (map snd pairs) a = map fst pairs.
Proof.
  unfold select. induction 1 as [| [v i] rest Hvi _ IH]; simpl; [reflexivity |].
  simpl in Hvi. rewrite Hvi. simpl. now rewrite IH.
Qed.

Lemma Sorted_map_fst (leb : Z * nat -> Z * nat -> bool) (pairs : list (Z * nat)) :
  (forall x y, leb x y = true -> fst x <= fst y) ->
  Sorted (fun x y => is_true (leb x y)) pairs ->
  Sorted Z.le (map fst pairs).
Proof.
  intros Hleb. induction 1 as [| x rest _ IH Hhd]; simpl; constructor; [exact IH |].
  destruct Hhd as [| y rest' Hxy]; simpl; constructor. now apply Hleb.
Qed.

Section ArgsortBy.
Variable leb : Z * nat -> Z * nat -> bool.
Variable sort : list (Z * nat) -> list (Z * nat).
Hypothesis leb_fst : forall x y, leb x y = true -> fst x <= fst y.
Hypothesis sort_sorted : forall l, Sorted (fun x y => is_true (leb x y)) (sort l).
Hypothesis sort_permuted : forall l, Permutation l (sort l).

Lemma argsort_by_contract :
  argsort_contract (fun a => map snd (sort (combine a (seq 0 (List.length a))))).
Proof.
  intros a. set (pairs := combine a (seq 0 (List.length a))). split.
  - rewrite <- (map_snd_combine_seq a 0). fold pairs.
    apply Permutation_map. symmetry. apply sort_permuted.
  - rewrite select_map_snd.
    + apply Sorted_map_fst with (leb := leb); [exact leb_fst | apply sort_sorted].
    + eapply Permutation_Forall; [apply sort_permuted |].
      exact (combine_seq_index [] a).
Qed.
End ArgsortBy.

Lemma leb_ties_fst (x y : Z * nat) :
  (leb_ties_ascending x y = true -> fst x <= fst y)
  /\ (leb_ties_descending x y = true -> fst x <= fst y).
Proof.
  unfold leb_ties_ascending, leb_ties_descending.
  split; intros H; apply orb_prop in H; destruct H as [H | H];
    try (apply Z.ltb_lt in H; lia);
    apply andb_prop in H; destruct H as [H _]; apply Z.eqb_eq in H; lia.
Qed.


Lemma argsort_reversing_contract : argsort_contract argsort_reversing.
Proof.
  apply argsort_by_contract with (leb := leb_ties_descending).
  - intros x y. apply leb_ties_fst.
  - apply SortDescending.Sorted_sort.
  - apply SortDescending.Permuted_sort.
Qed.




(** ** The output driver and do_stats *)









Lemma opened_app (t1 t2 : list sink_event) :
  OutputDriver.opened (t1 ++ t2) = OutputDriver.opened t1 ++ OutputDriver.opened t2.
Proof. unfold OutputDriver.opened. apply flat_map_app. Qed.






Lemma for_each_map {S A B : Type} (g : A -> B) (xs : list A) (body : B -> io S unit) (s : S) :
  for_each (map g xs) body s = for_each xs (fun x => body (g x)) s.
Proof.
  revert s. induction xs as [| x xs IH]; intros s; simpl; [reflexivity |].
  unfold io_bind. destruct (body (g x) s) as [[[] | e] s1]; [apply IH | reflexivity].
Qed.

Lemma for_each_app {S A : Type} (xs ys : list A) (body : A -> io S unit) (s : S) :
  for_each (xs ++ ys) body s = (for_each xs body ;;; for_each ys body) s.
Proof.
  revert s. induction xs as [| x xs IH]; intros s; simpl.
  - reflexivity.
  - unfold io_bind. destruct (body x s) as [[[] | e] s1]; [| reflexivity].
    rewrite IH. reflexivity.
Qed.

Lemma for_each_flat_map {S A B : Type} (f : A -> list B) (xs : list A)
      (body : B -> io S unit) (s : S) :
  for_each (flat_map f xs) body s = for_each xs (fun x => for_each (f x) body) s.
Proof.
  revert s. induction xs as [| x xs IH]; intros s; simpl; [reflexivity |].
  rewrite for_each_app. unfold io_bind.
  destruct (for_each (f x) body s) as [[[] | e] s1]; [apply IH | reflexivity].
Qed.

Lemma for_each_ext {S A : Type} (xs : list A) (body1 body2 : A -> io S unit) (s : S) :
  (forall x s', body1 x s' = body2 x s') ->
  for_each xs body1 s = for_each xs body2 s.
Proof.
  intros Hext. revert s. induction xs as [| x xs IH]; intros s; simpl; [reflexivity |].
  unfold io_bind. rewrite Hext.
  destruct (body2 x s) as [[[] | e] s1]; [apply IH | reflexivity].
Qed.

(** [open_output_files] opens the sinks of the opening plan one by one. *)
Lemma open_output_files_plan (env : Env.t) (kind : driver)
      (output_products : list (string * StatProduct.t)) (s : OutputDriver.t) :
  OutputDriver.open_output_files env kind output_products s
  = for_each (opening_plan kind output_products) (open_and_store env) s.
Proof.
  unfold OutputDriver.open_output_files, opening_plan. destruct kind.
  - now rewrite for_each_map.
  - rewrite for_each_flat_map. apply for_each_ext.
    intros ps s'. now rewrite for_each_map.
Qed.

Lemma opening_plan_keys (kind : driver) (output_products : list (string * StatProduct.t)) :
  map fst (opening_plan kind output_products) = sink_keys kind output_products.
Proof.
  unfold opening_plan, sink_keys. destruct kind.
  - now rewrite map_map.
  - induction output_products as [| ps rest IH]; simpl; [reflexivity |].
    rewrite map_app, map_map, IH. reflexivity.
Qed.

Lemma dict_set_fresh {V : Type} (d : list (string * V)) (key : string) (v : V) :
  ~ In key (map fst d) -> dict_set d key v = d ++ [(key, v)].
Proof.
  induction d as [| [k w] rest IH]; intros Hfresh; simpl; [reflexivity |].
  simpl in Hfresh. destruct (String.eqb_spec k key) as [-> | Hne]; [tauto |].
  rewrite IH by tauto. reflexivity.
Qed.






(** * Further properties of the code *)

(** ** [datetime64_to_inttime] keeps the order of days *)






(** ** Dictionaries *)

Lemma dict_get_set_same {V : Type} (d : list (string * V)) (key : string) (v : V) :
  dict_get (dict_set d key v) key = Some v.
Proof.
  induction d as [| [k w] rest IH]; simpl.
  - now rewrite String.eqb_refl.
  - destruct (String.eqb_spec k key) as [-> | Hne]; simpl.
    + now rewrite String.eqb_refl.
    + destruct (String.eqb_spec k key); [contradiction | exact IH].
Qed.

Lemma dict_get_set_other {V : Type} (d : list (string * V)) (key other : string) (v : V) :
  other <> key -> dict_get (dict_set d key v) other = dict_get d other.
Proof.
  intros Hne. induction d as [| [k w] rest IH]; simpl.
  - destruct (String.eqb_spec key other); [congruence | reflexivity].
  - destruct (String.eqb_spec k key) as [-> | Hk]; simpl.
    + destruct (String.eqb_spec key other); [congruence | reflexivity].
    + destruct (String.eqb_spec k other); [reflexivity | exact IH].
Qed.

Lemma dict_set_keys {V : Type} (d : list (string * V)) (key name : string) (v : V) :
  In name (map fst (dict_set d key v)) <-> In name (map fst d) \/ name = key.
Proof.
  induction d as [| [k w] rest IH]; simpl.
  - intuition.
  - destruct (String.eqb_spec k key) as [-> | Hk]; simpl.
    + intuition.
    + rewrite IH. intuition.
Qed.






Lemma dict_get_In {V : Type} (d : list (string * V)) (key : string) (v : V) :
  NoDup (map fst d) -> In (key, v) d -> dict_get d key = Some v.
Proof.
  induction d as [| [k w] rest IH]; intros Hnodup Hin; [destruct Hin |].
  simpl in *. inversion Hnodup as [| ? ? Hfresh Hrest]; subst.
  destruct Hin as [Heq | Hin].
  - injection Heq as -> ->. now rewrite String.eqb_refl.
  - destruct (String.eqb_spec k key) as [-> | Hne].
    + exfalso. apply Hfresh. apply in_map_iff. now exists (key, v).
    + now apply IH.
Qed.

Lemma dict_get_fresh {V : Type} (d : list (string * V)) (key : string) :
  ~ In key (map fst d) -> dict_get d key = None.
Proof.
  induction d as [| [k w] rest IH]; intros Hfresh; simpl; [reflexivity |].
  simpl in Hfresh. destruct (String.eqb_spec k key); [tauto | apply IH; tauto].
Qed.








(** ** The counts of WofsStats *)

(** A cell cannot hold both codes: needed because a float cell compares by
    float equality. *)
Lemma wet_not_dry (c : cell) : cell_eq_scalar c 128 = true -> cell_eq_scalar c 0 = false.
Proof.
  destruct c as [z | f]; simpl.
  - intros H. apply Z.eqb_eq in H. subst. reflexivity.
  - change (float_of_Z 128) with 128%float. change (float_of_Z 0) with 0%float.
    rewrite !FloatAxioms.eqb_spec.
    replace (Prim2SF 128) with (S754_finite false 4503599627370496 (-45)) by (vm_compute; reflexivity).
    replace (Prim2SF 0) with (S754_zero false) by (vm_compute; reflexivity).
    intros H.
    destruct (Prim2SF f) as [s | s | | s m e]; unfold SFeqb, SFcompare in *.
    + destruct s; discriminate H.
    + destruct s; discriminate H.
    + discriminate H.
    + destruct s; reflexivity.
Qed.

Lemma count_code_nonneg (k : Z) (series : list cell) : 0 <= count_code k series.
Proof.
  unfold count_code, sum_bools. induction series as [| c s IH]; simpl; [lia |].
  destruct (cell_eq_scalar c k); lia.
Qed.

Lemma count_wet_dry_le (series : list cell) :
  count_code 128 series + count_code 0 series <= Z.of_nat (List.length series).
Proof.
  unfold count_code, sum_bools. induction series as [| c s IH]; [simpl; lia |].
  cbn [map fold_right List.length]. rewrite Nat2Z.inj_succ.
  destruct (cell_eq_scalar c 128) eqn:Hwet.
  - rewrite (wet_not_dry c Hwet). lia.
  - destruct (cell_eq_scalar c 0); lia.
Qed.

Lemma column_length {A : Type} (p : nat) (rows : list (list A)) :
  (List.length (column p rows) <= List.length rows)%nat.
Proof.
  unfold column. induction rows as [| row rows IH]; simpl; [lia |].
  destruct (nth_error row p); simpl; lia.
Qed.

(** X4. The counts of [WofsStats.compute].  For data with a 'water' variable
    and a crs, the computation returns, and at every pixel
    0 <= count_wet <= count_clear <= number of time steps. *)
Theorem wofs_counts_bounded
        (data : Dataset.t) (water : list (list cell)) (crs : string) (p : nat) :
  dict_get (Dataset.data_vars data) "water" = Some water ->
  Dataset.crs data = Some crs ->
  (p < Dataset.npix data)%nat ->
  exists result count_wet count_clear wet clear,
    WofsStats.compute data = Ok result
    /\ dict_get (Reduced.data_vars result) "count_wet" = Some (Values count_wet)
    /\ dict_get (Reduced.data_vars result) "count_clear" = Some (Values count_clear)
    /\ nth_error count_wet p = Some (I wet)
    /\ nth_error count_clear p = Some (I clear)
    /\ 0 <= wet <= clear
    /\ clear <= Z.of_nat (List.length water).
Proof.
  intros Hwater Hcrs Hp.
  destruct (wofs_compute_pixel data water crs Hwater Hcrs)
    as (wet & clear & frequency & Hcompute & Hpixel).
  destruct (Hpixel p Hp) as (Hwet & Hclear & _). cbv zeta in Hwet, Hclear.
  exists (Reduced.mk [("count_wet", Values (map I wet));
                      ("count_clear", Values (map I clear));
                      ("frequency", Values (map F frequency))] (Some crs)).
  exists (map I wet), (map I clear), (count_code 128 (column p water)),
    (count_code 128 (column p water) + count_code 0 (column p water)).
  split; [exact Hcompute |]. split; [reflexivity |]. split; [reflexivity |].
  rewrite !nth_error_map, Hwet, Hclear. split; [reflexivity |]. split; [reflexivity |].
  pose proof (count_code_nonneg 128 (column p water)).
  pose proof (count_code_nonneg 0 (column p water)).
  pose proof (count_wet_dry_le (column p water)).
  pose proof (column_length p water). lia.
Qed.

Lemma count_code_none (k : Z) (series : list cell) :
  Forall (fun c => cell_eq_scalar c k = false) series -> count_code k series = 0.
Proof.
  unfold count_code, sum_bools. induction 1 as [| c s Hc _ IH]; simpl; [reflexivity |].
  rewrite Hc. lia.
Qed.

(** X5. A pixel of [WofsStats.compute] that is neither wet (128) nor dry (0)
    at any time step: both counts are 0 and the frequency, 0 / 0 in float
    arithmetic, is NaN; the computation still returns. *)
Theorem wofs_frequency_nan_when_never_clear
        (data : Dataset.t) (water : list (list cell)) (crs : string) (p : nat) :
  dict_get (Dataset.data_vars data) "water" = Some water ->
  Dataset.crs data = Some crs ->
  (p < Dataset.npix data)%nat ->
  Forall (fun c => cell_eq_scalar c 128 = false /\ cell_eq_scalar c 0 = false)
         (column p water) ->
  exists result count_wet count_clear frequency f,
    WofsStats.compute data = Ok result
    /\ dict_get (Reduced.data_vars result) "count_wet" = Some (Values count_wet)
    /\ dict_get (Reduced.data_vars result) "count_clear" = Some (Values count_clear)
    /\ dict_get (Reduced.data_vars result) "frequency" = Some (Values frequency)
    /\ nth_error count_wet p = Some (I 0)
    /\ nth_error count_clear p = Some (I 0)
    /\ nth_error frequency p = Some (F f)
    /\ PrimFloat.is_nan f = true.
Proof.
  intros Hwater Hcrs Hp Hnone.
  destruct (wofs_compute_pixel data water crs Hwater Hcrs)
    as (wet & clear & frequency & Hcompute & Hpixel).
  destruct (Hpixel p Hp) as (Hwet & Hclear & Hfreq). cbv zeta in Hwet, Hclear, Hfreq.
  rewrite (count_code_none 128) in Hwet, Hclear, Hfreq
    by (eapply Forall_impl; [| exact Hnone]; intros c [H _]; exact H).
  rewrite (count_code_none 0) in Hclear, Hfreq
    by (eapply Forall_impl; [| exact Hnone]; intros c [_ H]; exact H).
  eexists _, _, _, _, _. split; [exact Hcompute |]. simpl.
  repeat (split; [reflexivity |]).
  rewrite !nth_error_map, Hwet, Hclear, Hfreq. simpl.
  repeat split.
Qed.

(** Two time steps of one pixel, one wet and one masked. *)
Lemma wofs_counts_bounded_witness :
  let data := Dataset.mk [0; 1] None 1 [("water", [[I 128]; [I 4]])] (Some "EPSG:3577") in
  exists result count_wet count_clear wet clear,
    WofsStats.compute data = Ok result
    /\ dict_get (Reduced.data_vars result) "count_wet" = Some (Values count_wet)
    /\ dict_get (Reduced.data_vars result) "count_clear" = Some (Values count_clear)
    /\ nth_error count_wet 0 = Some (I wet)
    /\ nth_error count_clear 0 = Some (I clear)
    /\ 0 <= wet <= clear
    /\ clear <= 2.
Proof.
  intros data.
  apply (wofs_counts_bounded data [[I 128]; [I 4]] "EPSG:3577" 0%nat);
    [reflexivity | reflexivity | simpl; lia].
Defined.

(** One pixel that is cloud (code 4) at both time steps. *)
Lemma wofs_frequency_nan_when_never_clear_witness :
  let data := Dataset.mk [0; 1] None 1 [("water", [[I 4]; [I 4]])] (Some "EPSG:3577") in
  exists result count_wet count_clear frequency f,
    WofsStats.compute data = Ok result
    /\ dict_get (Reduced.data_vars result) "count_wet" = Some (Values count_wet)
    /\ dict_get (Reduced.data_vars result) "count_clear" = Some (Values count_clear)
    /\ dict_get (Reduced.data_vars result) "frequency" = Some (Values frequency)
    /\ nth_error count_wet 0 = Some (I 0)
    /\ nth_error count_clear 0 = Some (I 0)
    /\ nth_error frequency 0 = Some (F f)
    /\ PrimFloat.is_nan f = true.
Proof.
  intros data.
  apply (wofs_frequency_nan_when_never_clear data [[I 4]; [I 4]] "EPSG:3577" 0%nat);
    [reflexivity | reflexivity | simpl; lia |].
  repeat constructor.
Defined.

(** ** load_data keeps every time slice *)

Lemma select_all {A : Type} (before xs : list A) :
  select (seq (List.length before) (List.length xs)) (before ++ xs) = xs.
Proof.
  unfold select. revert before. induction xs as [| x xs IH]; intros before; simpl; [reflexivity |].
  rewrite nth_error_app2 by lia. rewrite Nat.sub_diag. simpl. f_equal.
  specialize (IH (before ++ [x])). rewrite length_app, <- app_assoc in IH. simpl in IH.
  rewrite Nat.add_1_r in IH. exact IH.
Qed.

Lemma select_permutation {A : Type} (order : list nat) (xs : list A) :
  Permutation order (seq 0 (List.length xs)) -> Permutation (select order xs) xs.
Proof.
  intros Hperm. rewrite <- (select_all [] xs) at 2. simpl.
  unfold select. now apply Permutation_flat_map.
Qed.

Lemma select_combine {A B : Type} (order : list nat) (xs : list A) (ys : list B) :
  List.length xs = List.length ys ->
  select order (combine xs ys) = combine (select order xs) (select order ys).
Proof.
  intros Hlen. unfold select. induction order as [| i rest IH]; simpl; [reflexivity |].
  rewrite IH.
  destruct (nth_error xs i) as [x |] eqn:Hx.
  - destruct (nth_error ys i) as [y |] eqn:Hy.
    + assert (Hxy : nth_error (combine xs ys) i = Some (x, y)).
      { clear - Hx Hy. revert ys i Hx Hy.
        induction xs as [| x0 xs IH]; intros [| y0 ys] [| i] Hx Hy; simpl in *;
          try discriminate.
        - now injection Hx as <-; injection Hy as <-.
        - now apply IH. }
      rewrite Hxy. reflexivity.
    + apply nth_error_None in Hy. assert (Hsome : nth_error xs i <> None) by congruence.
      apply nth_error_Some in Hsome. lia.
  - assert (Hnone : nth_error (combine xs ys) i = None).
    { apply nth_error_None. rewrite length_combine. apply nth_error_None in Hx. lia. }
    rewrite Hnone. destruct (nth_error ys i) as [y |] eqn:Hy; [| reflexivity].
    apply nth_error_None in Hx. assert (Hsome : nth_error ys i <> None) by congruence.
    apply nth_error_Some in Hsome. lia.
Qed.

Lemma source_tags_length (loaded : list Dataset.t) :
  List.length (source_tags loaded) = List.length (List.concat (map Dataset.time loaded)).
Proof.
  unfold source_tags, enumerate. generalize 0%nat.
  induction loaded as [| d ds IH]; intros start; simpl; [reflexivity |].
  rewrite !length_app, repeat_length. f_equal. apply IH.
Qed.

(** X6. [load_data] loses and invents nothing along time.  When it returns,
    every bundle was loaded, and the (timestamp, source tag) pairs of the
    result are a rearrangement of the pairs of the loaded bundles, each time
    slice of bundle [i] being tagged [i]: the sort moves a timestamp and its
    tag together, and the result has as many time slices as the bundles
    together. *)
Theorem load_data_keeps_every_slice
        (Slice SourceProd : Type)
        (load_masked_data : Slice -> SourceProd -> result Dataset.t)
        (argsort : list Z -> list nat)
        (sub_tile_slice : Slice) (sources : list SourceProd) (data : Dataset.t) :
  argsort_contract argsort ->
  load_data load_masked_data argsort sub_tile_slice sources = Ok data ->
  exists loaded source,
    mapM (load_masked_data sub_tile_slice) sources = Ok loaded
    /\ Dataset.source data = Some source
    /\ Permutation (combine (Dataset.time data) source)
                   (combine (List.concat (map Dataset.time loaded)) (source_tags loaded))
    /\ List.length (Dataset.time data)
       = List.length (List.concat (map Dataset.time loaded))
    /\ List.length source = List.length (Dataset.time data).
Proof.
  intros Hsort Hrun. unfold load_data in Hrun.
  destruct (mapM (load_masked_data sub_tile_slice) sources) as [loaded | e];
    cbn [bind] in Hrun; [| discriminate].
  fold (tagged loaded) in Hrun.
  destruct (concat_time (tagged loaded)) as [whole | e] eqn:Hconcat;
    cbn [bind] in Hrun; [| discriminate].
  injection Hrun as <-.
  destruct (concat_time_coords (tagged loaded) whole Hconcat) as [Htime Hsource].
  rewrite tagged_times in Htime. rewrite tagged_sources in Hsource.
  fold (source_tags loaded) in Hsource.
  set (times := List.concat (map Dataset.time loaded)) in *.
  destruct (Hsort (Dataset.time whole)) as [Hperm _]. rewrite Htime in Hperm |- *.
  set (order := argsort times) in *.
  pose proof (source_tags_length loaded) as Hlen. fold times in Hlen.
  assert (Hpairs : Permutation (combine (select order times) (select order (source_tags loaded)))
                               (combine times (source_tags loaded))).
  { rewrite <- select_combine by now rewrite Hlen.
    apply select_permutation. rewrite length_combine, Hlen, Nat.min_id. exact Hperm. }
  exists loaded, (select order (source_tags loaded)).
  split; [reflexivity |]. unfold isel_time. cbn [Dataset.source Dataset.time].
  rewrite Hsource, Htime. split; [reflexivity |]. split; [exact Hpairs |].
  pose proof (Permutation_length Hpairs) as Hsame. rewrite !length_combine in Hsame.
  pose proof (Permutation_length (select_permutation order times Hperm)) as Htimes.
  assert (Htags : Permutation (select order (source_tags loaded)) (source_tags loaded)).
  { apply select_permutation. now rewrite Hlen. }
  apply Permutation_length in Htags. split; [exact Htimes | lia].
Qed.

(** Two bundles over the same dates, sorted by a sort that reverses ties. *)
Lemma load_data_keeps_every_slice_witness :
  let ls7 := Dataset.mk [10; 30] None 1 [("red", [[I 1]; [I 3]])] (Some "EPSG:3577") in
  let ls8 := Dataset.mk [20; 30] None 1 [("red", [[I 2]; [I 4]])] (Some "EPSG:3577") in
  exists data source,
    load_data (fun (_ : unit) (d : Dataset.t) => Ok d) argsort_reversing tt [ls7; ls8] = Ok data
    /\ Dataset.source data = Some source
    /\ Permutation (combine (Dataset.time data) source) [(10, 0); (30, 0); (20, 1); (30, 1)].
Proof.
  intros ls7 ls8.
  destruct (load_data (fun (_ : unit) (d : Dataset.t) => Ok d) argsort_reversing tt [ls7; ls8])
    as [data | e] eqn:Hrun; [| discriminate Hrun].
  destruct (load_data_keeps_every_slice unit Dataset.t (fun _ d => Ok d) argsort_reversing tt
              [ls7; ls8] data argsort_reversing_contract Hrun)
    as (loaded & source & Hloaded & Hsource & Hperm & _).
  injection Hloaded as <-.
  exists data, source. split; [reflexivity |]. split; [exact Hsource | exact Hperm].
Defined.

(** ** make_products *)

Lemma registered_statistics_masked (name : string) (s : statistic) :
  getitem STATS name = Ok s -> statistic_masked s = true.
Proof.
  unfold getitem, STATS. cbn [dict_get].
  repeat (match goal with
          | |- context [String.eqb ?a name] => destruct (String.eqb a name)
          end; [intros H; injection H as <-; reflexivity |]).
  discriminate.
Qed.

Lemma no_duplicate_names (names : list string) :
  duplicate_names_of names = [] -> NoDup names.
Proof.
  intros Hnone. apply (NoDup_count_occ string_dec). intros x.
  destruct (le_lt_dec (count_occ string_dec names x) 1) as [Hle | Hgt]; [exact Hle |].
  assert (Hin : In x (duplicate_names_of names)) by (apply duplicate_names_of_In; lia).
  rewrite Hnone in Hin. destruct Hin.
Qed.

Section MakeProductsLoop.
Variable validate : DatasetType.t -> result unit.
Variable index : Index.t.
Variable measurements : list measurement.
Variable storage : Storage.t.

Let step (acc : io (list index_event) (list (string * StatProduct.t)))
    (prod : ProductDefinition.t) : io (list index_event) (list (string * StatProduct.t)) :=
  output_products <~ acc ;;
  eo <~ metadata_types_get_by_name index "eo" ;;
  stat <~ StatProduct.init validate eo measurements prod storage ;;
  ret (dict_set output_products (ProductDefinition.name prod) stat).

Lemma make_products_step (acc : io (list index_event) (list (string * StatProduct.t)))
      (prod : ProductDefinition.t) (log log' : list index_event)
      (products : list (string * StatProduct.t)) :
  step acc prod log = (Ok products, log') ->
  exists before log0 stat,
    acc log = (Ok before, log0)
    /\ products = dict_set before (ProductDefinition.name prod) stat
    /\ log' = log0 ++ product_events prod
    /\ made_from validate measurements storage prod (ProductDefinition.name prod, stat).
Proof.
  unfold step, io_bind. destruct (acc log) as [[before | e] log0]; [| discriminate].
  unfold metadata_types_get_by_name.
  set (eo := if contains (Index.metadata_types index) "eo" then Some "eo" else None).
  unfold StatProduct.init, io_bind, lift, StatProduct.statistic.
  destruct (getitem STATS (ProductDefinition.statistic prod)) as [s | e] eqn:Hs;
    cbn [bind]; [| discriminate].
  destruct (statistic_measurements s measurements) as [data_measurements | e] eqn:Hdm;
    [| discriminate].
  unfold StatProduct.create_product, io_bind, lift.
  match goal with |- context [validate ?d] => set (document := d) end.
  destruct (validate document) as [[] | e] eqn:Hvalid; [| discriminate].
  destruct (StatProduct.create_netcdf_var_params prod storage data_measurements)
    as [var_params | e] eqn:Hparams; [| discriminate].
  unfold ret. intros H. injection H as <- <-.
  exists before, log0, (StatProduct.mk prod document var_params).
  split; [reflexivity |]. split; [reflexivity |]. split.
  { unfold product_events. now rewrite <- app_assoc. }
  unfold made_from. cbn [fst snd StatProduct.definition StatProduct.product
                         StatProduct.netcdf_var_params].
  split; [reflexivity |]. split; [reflexivity |]. split.
  { unfold StatProduct.masked, StatProduct.statistic. cbn [StatProduct.definition].
    rewrite Hs. cbn [bind]. now rewrite (registered_statistics_masked _ _ Hs). }
  split; [exact Hvalid |]. split; [reflexivity |]. split; [reflexivity |].
  exists s, data_measurements. repeat split; assumption.
Qed.

Lemma make_products_loop (definitions : list ProductDefinition.t)
      (acc : io (list index_event) (list (string * StatProduct.t)))
      (log log' : list index_event) (products : list (string * StatProduct.t)) :
  fold_left step definitions acc log = (Ok products, log') ->
  exists before log0 entries,
    acc log = (Ok before, log0)
    /\ products = fold_left (fun d kv => dict_set d (fst kv) (snd kv)) entries before
    /\ log' = log0 ++ flat_map product_events definitions
    /\ Forall2 (made_from validate measurements storage) definitions entries.
Proof.
  revert acc. induction definitions as [| prod rest IH]; intros acc H; simpl in H.
  - exists products, log', []. simpl. rewrite app_nil_r. repeat split; [exact H | constructor].
  - destruct (IH _ H) as (middle & log1 & entries & Hstep & Hproducts & Hlog & Hall).
    destruct (make_products_step acc prod log log1 middle Hstep)
      as (before & log0 & stat & Hacc & Hmiddle & Hlog1 & Hmade).
    exists before, log0, ((ProductDefinition.name prod, stat) :: entries).
    split; [exact Hacc |]. split; [simpl; now rewrite <- Hmiddle |]. split.
    + simpl. rewrite Hlog, Hlog1. now rewrite <- app_assoc.
    + now constructor.
Qed.
End MakeProductsLoop.

Lemma dict_of_distinct {V : Type} (entries before : list (string * V)) :
  NoDup (map fst before ++ map fst entries) ->
  fold_left (fun d kv => dict_set d (fst kv) (snd kv)) entries before = before ++ entries.
Proof.
  revert before. induction entries as [| [k v] rest IH]; intros before Hnodup; simpl.
  - now rewrite app_nil_r.
  - rewrite dict_set_fresh.
    + rewrite IH; [now rewrite <- app_assoc |].
      rewrite map_app. simpl. now rewrite <- app_assoc.
    + simpl in Hnodup. apply NoDup_remove_2 in Hnodup. intros Hin. apply Hnodup.
      apply in_or_app. now left.
Qed.

Lemma made_from_names (validate : DatasetType.t -> result unit)
      (measurements : list measurement) (storage : Storage.t)
      (definitions : list ProductDefinition.t) (entries : list (string * StatProduct.t)) :
  Forall2 (made_from validate measurements storage) definitions entries ->
  map fst entries = map ProductDefinition.name definitions.
Proof.
  induction 1 as [| prod entry ds es Hmade _ IH]; simpl; [reflexivity |].
  destruct Hmade as [-> _]. now rewrite IH.
Qed.

(** X7. What a successful [make_products] returns.  The names of the
    configured output products are distinct; the index was asked once for
    the product of the first source and then, per output product in the
    order of the configuration, for the metadata type 'eo' before the
    product was created; the result holds one product per definition, in
    that order, stored under its name, whose statistic is registered and
    masked (so the assertion of do_stats holds for it), whose document the
    schema check accepted, and which declares the measurements of its
    statistic for the source measurements. *)
Theorem make_products_one_per_definition
        (validate : DatasetType.t -> result unit) (index : Index.t)
        (config : StatsConfig.t) (log log' : list index_event)
        (products : list (string * StatProduct.t)) :
  make_products validate index config log = (Ok products, log') ->
  exists first_source measurements,
    hd_error (StatsConfig.sources config) = Some first_source
    /\ source_product_measurement_defns index (StatsConfig.sources config) log
       = (Ok measurements, log ++ [GetProduct (SourceSpec.product first_source)])
    /\ NoDup (map fst products)
    /\ Forall2 (made_from validate measurements (StatsConfig.storage config))
               (StatsConfig.output_products config) products
    /\ log' = log ++ GetProduct (SourceSpec.product first_source)
                  :: flat_map product_events (StatsConfig.output_products config).
Proof.
  unfold make_products.
  destruct (duplicate_names_of (map ProductDefinition.name (StatsConfig.output_products config)))
    as [| d ds] eqn:Hdup; [| discriminate].
  apply no_duplicate_names in Hdup.
  unfold io_bind at 1.
  destruct (source_product_measurement_defns index (StatsConfig.sources config) log)
    as [[measurements | e] log1] eqn:Hsource; [| discriminate].
  intros H.
  destruct (make_products_loop validate index measurements (StatsConfig.storage config)
              (StatsConfig.output_products config) (fun log0 => (Ok [], log1))
              log log' products)
    as (before & log0 & entries & Hacc & Hproducts & Hlog & Hall).
  { revert H. clear. generalize (StatsConfig.output_products config) as definitions.
    intros definitions.
    assert (Hgen : forall acc1 acc2 : io (list index_event) (list (string * StatProduct.t)),
               forall l1 l2, acc1 l1 = acc2 l2 ->
               forall F, (forall a1 a2 p, a1 l1 = a2 l2 -> F a1 p l1 = F a2 p l2) ->
               fold_left F definitions acc1 l1 = fold_left F definitions acc2 l2).
    { induction definitions as [| p rest IH]; intros acc1 acc2 l1 l2 Heq F HF; simpl;
        [exact Heq |].
      apply IH; [now apply HF | exact HF]. }
    intros H. rewrite <- H. symmetry.
    apply Hgen; [reflexivity |].
    intros a1 a2 p Ha. unfold io_bind. now rewrite Ha. }
  injection Hacc as <- <-. simpl in Hproducts.
  pose proof (made_from_names _ _ _ _ _ Hall) as Hnames.
  rewrite dict_of_distinct in Hproducts by (simpl; now rewrite Hnames).
  simpl in Hproducts. subst products.
  unfold source_product_measurement_defns in Hsource |- *.
  destruct (StatsConfig.sources config) as [| first_source others]; [discriminate |].
  exists first_source, measurements. split; [reflexivity |].
  destruct (negb _); [discriminate |].
  unfold io_bind, products_get_by_name, lift, ret in Hsource |- *.
  destruct (dict_get (Index.products index) (SourceSpec.product first_source))
    as [source_product |]; cbn [getattr] in Hsource |- *; [| discriminate].
  injection Hsource as <- <-.
  split; [reflexivity |]. split; [now rewrite Hnames |]. split; [exact Hall |].
  rewrite Hlog. now rewrite <- app_assoc.
Qed.

(** Two products over the measurement 'red'. *)
Lemma make_products_one_per_definition_witness :
  exists products log',
    make_products (fun _ => Ok tt) red_index two_netcdf_products [] = (Ok products, log')
    /\ map fst products = ["red_median"; "red_mean"]
    /\ log' = [GetProduct "ls8_nbar_albers";
               GetMetadataType "eo"; CreateDatasetType "red_median";
               GetMetadataType "eo"; CreateDatasetType "red_mean"].
Proof.
  destruct (make_products (fun _ => Ok tt) red_index two_netcdf_products [])
    as [[products | e] log'] eqn:Hrun; [| discriminate Hrun].
  exists products, log'. split; [reflexivity |].
  destruct (make_products_one_per_definition (fun _ => Ok tt) red_index two_netcdf_products
              [] log' products Hrun)
    as (first_source & measurements & Hfirst & _ & _ & Hall & Hlog).
  injection Hfirst as <-. split; [| exact Hlog].
  rewrite (made_from_names _ _ _ _ _ Hall). reflexivity.
Defined.

(** ** NetCDF variable parameters *)

Lemma mapM_getitem {V : Type} (d : list (string * V)) (keys : list string) :
  match mapM (getitem d) keys with
  | Ok values => map (dict_get d) keys = map Some values
  | Raise e => exists key, e = KeyError key /\ In key keys /\ dict_get d key = None
  end.
Proof.
  induction keys as [| key rest IH]; simpl; [reflexivity |].
  unfold getitem at 1. destruct (dict_get d key) as [v |] eqn:Hkey; cbn [bind].
  - destruct (mapM (getitem d) rest) as [values | e]; cbn [bind].
    + simpl. now rewrite IH.
    + destruct IH as (k & He & Hin & Hnone). exists k. auto.
  - exists key. auto.
Qed.

Lemma dict_get_update {V : Type} (updates d : list (string * V)) (k : string) :
  NoDup (map fst updates) ->
  dict_get (fold_left (fun d kv => dict_set d (fst kv) (snd kv)) updates d) k
  = match dict_get updates k with
    | Some v => Some v
    | None => dict_get d k
    end.
Proof.
  revert d. induction updates as [| [k1 v1] rest IH]; intros d Hnodup; simpl; [reflexivity |].
  inversion Hnodup as [| ? ? Hfresh Hrest]; subst. rewrite IH by exact Hrest.
  destruct (String.eqb_spec k1 k) as [-> | Hne].
  - rewrite (dict_get_fresh rest k Hfresh). apply dict_get_set_same.
  - rewrite dict_get_set_other by congruence. reflexivity.
Qed.

Lemma dict_get_filter_keys {V : Type} (keep : string -> bool) (d : list (string * V))
      (k : string) :
  dict_get (filter (fun kv => keep (fst kv)) d) k = if keep k then dict_get d k else None.
Proof.
  induction d as [| [k1 v1] rest IH]; simpl; [now destruct (keep k) |].
  destruct (keep k1) eqn:Hkeep; simpl.
  - destruct (String.eqb_spec k1 k) as [-> | Hne]; [now rewrite Hkeep | exact IH].
  - rewrite IH. destruct (String.eqb_spec k1 k) as [-> | Hne]; [now rewrite Hkeep | reflexivity].
Qed.

Lemma NoDup_filter_keys {V : Type} (keep : string * V -> bool) (d : list (string * V)) :
  NoDup (map fst d) -> NoDup (map fst (filter keep d)).
Proof.
  induction d as [| kv rest IH]; intros Hnodup; simpl; [constructor |].
  inversion Hnodup as [| ? ? Hfresh Hrest]; subst.
  destruct (keep kv); simpl; [| now apply IH].
  constructor; [| now apply IH].
  intros Hin. apply Hfresh. apply in_map_iff in Hin. destruct Hin as (kv' & Heq & Hin).
  apply filter_In in Hin. apply in_map_iff. exists kv'. tauto.
Qed.

Lemma fold_left_dict_set_map {A V : Type} (key : A -> string) (value : A -> V)
      (xs : list A) (d : list (string * V)) :
  fold_left (fun d x => dict_set d (key x) (value x)) xs d
  = fold_left (fun d kv => dict_set d (fst kv) (snd kv)) (map (fun x => (key x, value x)) xs) d.
Proof.
  revert d. induction xs as [| x xs IH]; intros d; simpl; [reflexivity | apply IH].
Qed.

Lemma fold_dict_set_keys {V : Type} (entries d : list (string * V)) (name : string) :
  In name (map fst (fold_left (fun d kv => dict_set d (fst kv) (snd kv)) entries d))
  <-> In name (map fst d) \/ In name (map fst entries).
Proof.
  revert d. induction entries as [| [k v] rest IH]; intros d; simpl; [tauto |].
  rewrite IH, dict_set_keys. intuition.
Qed.

Lemma fold_dict_set_values {V : Type} (P : V -> Prop) (entries d : list (string * V)) :
  Forall P (map snd d) -> Forall P (map snd entries) ->
  Forall P (map snd (fold_left (fun d kv => dict_set d (fst kv) (snd kv)) entries d)).
Proof.
  revert d. induction entries as [| [k v] rest IH]; intros d Hd He; simpl; [exact Hd |].
  inversion He; subst. apply IH; [| assumption].
  clear - Hd H1. induction d as [| [k0 v0] d IH]; simpl in *.
  - now constructor.
  - inversion Hd; subst. destruct (String.eqb k0 k); simpl; constructor; auto.
Qed.

Lemma dict_get_value {V : Type} (d : list (string * V)) (key : string) (v : V) :
  dict_get d key = Some v -> In v (map snd d).
Proof.
  induction d as [| [k w] rest IH]; simpl; [discriminate |].
  destruct (String.eqb k key); [intros H; injection H as <-; now left | auto].
Qed.

(** X8. [_create_netcdf_var_params] for a product definition whose keys are
    distinct.  It raises KeyError for a dimension of [dimension_order] that
    has no chunk size, whatever the measurements.  Otherwise it returns one
    entry per measurement name; every entry carries the chunk sizes in the
    order of [dimension_order]; and for measurements of distinct names, the
    entry of a measurement holds the six standard parameter names only,
    each with the measurement's own setting where it has one and with the
    setting of the product definition otherwise. *)
Theorem netcdf_var_params_per_measurement
        (definition : ProductDefinition.t) (storage : Storage.t)
        (data_measurements : list measurement) :
  NoDup (map fst (ProductDefinition.params definition)) ->
  match StatProduct.create_netcdf_var_params definition storage data_measurements with
  | Raise e =>
      exists dim, e = KeyError dim
                  /\ In dim (Storage.dimension_order storage)
                  /\ dict_get (Storage.chunking storage) dim = None
  | Ok variable_params =>
      exists chunking,
        map (dict_get (Storage.chunking storage)) (Storage.dimension_order storage)
        = map Some chunking
        /\ (forall name, In name (map fst variable_params)
                         <-> In name (measurement_names data_measurements))
        /\ (forall name entry, dict_get variable_params name = Some entry ->
                               VariableParams.chunksizes entry = chunking)
        /\ (NoDup (measurement_names data_measurements) ->
            forall m, In m data_measurements -> NoDup (map fst (Measurement.extras m)) ->
                      exists entry,
                        dict_get variable_params (Measurement.name m) = Some entry
                        /\ forall k, dict_get (VariableParams.params entry) k
                                     = param_of definition m k)
  end.
Proof.
  intros Hparams. unfold StatProduct.create_netcdf_var_params.
  pose proof (mapM_getitem (Storage.chunking storage) (Storage.dimension_order storage)) as Hchunk.
  destruct (mapM (getitem (Storage.chunking storage)) (Storage.dimension_order storage))
    as [chunking | e]; cbn [bind]; [| exact Hchunk].
  exists chunking. split; [exact Hchunk |].
  set (standard := fun kv : string * string =>
                     contains STANDARD_VARIABLE_PARAM_NAMES (fst kv)).
  set (value := fun m : measurement =>
                  VariableParams.mk chunking
                    (fold_left (fun d kv => dict_set d (fst kv) (snd kv))
                               (filter standard (Measurement.extras m))
                               (filter standard (ProductDefinition.params definition)))).
  change (fold_left _ data_measurements [])
    with (fold_left (fun d m => dict_set d (Measurement.name m) (value m))
                    data_measurements []).
  rewrite (fold_left_dict_set_map Measurement.name value).
  set (entries := map (fun m => (Measurement.name m, value m)) data_measurements).
  assert (Hkeys : map fst entries = measurement_names data_measurements).
  { unfold entries, measurement_names. rewrite map_map. reflexivity. }
  split.
  { intros name. rewrite fold_dict_set_keys, Hkeys. simpl. tauto. }
  split.
  { intros name entry Hget. apply dict_get_value in Hget.
    assert (Hall : Forall (fun vp => VariableParams.chunksizes vp = chunking)
                          (map snd (fold_left (fun d kv => dict_set d (fst kv) (snd kv))
                                              entries []))).
    { apply fold_dict_set_values; [constructor |].
      unfold entries. rewrite map_map. apply Forall_forall. intros vp Hin.
      apply in_map_iff in Hin. destruct Hin as (m & <- & _). reflexivity. }
    rewrite Forall_forall in Hall. now apply Hall. }
  intros Hnames m Hm Hextras. exists (value m). split.
  - rewrite dict_of_distinct by (simpl; now rewrite Hkeys). simpl.
    apply dict_get_In; [now rewrite Hkeys |].
    unfold entries. apply in_map_iff. now exists m.
  - intros k. unfold value. cbn [VariableParams.params].
    rewrite dict_get_update by now apply NoDup_filter_keys.
    unfold standard.
    rewrite (dict_get_filter_keys (contains STANDARD_VARIABLE_PARAM_NAMES)
                                  (Measurement.extras m) k).
    rewrite (dict_get_filter_keys (contains STANDARD_VARIABLE_PARAM_NAMES)
                                  (ProductDefinition.params definition) k).
    unfold param_of. destruct (contains STANDARD_VARIABLE_PARAM_NAMES k); reflexivity.
Qed.

(** A definition that sets zlib and a measurement that sets complevel and
    aliases. *)
Lemma netcdf_var_params_per_measurement_witness :
  let definition := ProductDefinition.mk "red_mean" "mean" "mean.nc" [("zlib", "True")] in
  let storage := Storage.mk "NetCDF CF" "EPSG:3577" [("time", 1); ("y", 200); ("x", 100)]
                            ["time"; "y"; "x"] in
  let red := Measurement.mk "red" "int16" (PyInt (-999)) "1"
                            [("complevel", "4"); ("aliases", "band_4")] in
  StatProduct.create_netcdf_var_params definition storage [red]
  = Ok [("red", VariableParams.mk [1; 200; 100] [("zlib", "True"); ("complevel", "4")])]
  /\ StatProduct.create_netcdf_var_params
       definition (Storage.mk "NetCDF CF" "EPSG:3577" [("y", 200); ("x", 100)] ["time"; "y"; "x"])
       [red]
     = Raise (KeyError "time").
Proof.
  intros definition storage red. split; [reflexivity |].
  pose proof (netcdf_var_params_per_measurement
                definition
                (Storage.mk "NetCDF CF" "EPSG:3577" [("y", 200); ("x", 100)] ["time"; "y"; "x"])
                [red]) as H.
  assert (Hdistinct : NoDup (map fst (ProductDefinition.params definition)))
    by (subst definition; simpl; repeat constructor; simpl; intuition).
  specialize (H Hdistinct).
  destruct (StatProduct.create_netcdf_var_params _ _ _) as [variable_params | e].
  - destruct H as (chunking & Hchunking & _). destruct chunking; discriminate Hchunking.
  - destruct H as (dim & -> & [<- | [<- | [<- | []]]] & Hnone);
      [reflexivity | discriminate Hnone | discriminate Hnone].
Defined.

Lemma statistic_measurements_plain (s : statistic) (input_measurements : list measurement)
      (data_measurements : list measurement) :
  statistic_measurements s input_measurements = Ok data_measurements ->
  Forall (fun m => Measurement.extras m = []) data_measurements.
Proof.
  assert (Hvalue : Forall (fun m => Measurement.extras m = [])
                          (ValueStat.measurements input_measurements)).
  { unfold ValueStat.measurements. apply Forall_forall. intros m Hin.
    apply in_map_iff in Hin. destruct Hin as (m0 & <- & _). reflexivity. }
  assert (Hmap : forall f : measurement -> measurement,
             (forall m, Measurement.extras (f m) = []) ->
             Forall (fun m => Measurement.extras m = []) (map f input_measurements)).
  { intros f Hf. apply Forall_forall. intros m Hin.
    apply in_map_iff in Hin. destruct Hin as (m0 & <- & _). apply Hf. }
  destruct s as [reduction | q | | nd |]; simpl.
  - intros H. injection H as <-. exact Hvalue.
  - intros H. injection H as <-. unfold PerBandIndexStat.measurements.
    repeat (apply Forall_app; split); try exact Hvalue; apply Hmap; reflexivity.
  - intros H. injection H as <-. unfold PerStatIndexStat.measurements.
    repeat (apply Forall_app; split); try exact Hvalue; repeat constructor.
  - unfold NormalisedDifferenceStats.measurements.
    destruct (_ || _); [discriminate |]. intros H. injection H as <-.
    apply Forall_forall. intros m Hin. apply in_map_iff in Hin.
    destruct Hin as (stat & <- & _). reflexivity.
  - unfold WofsStats.measurements. destruct (contains _ _); [| discriminate].
    intros H. injection H as <-. repeat constructor.
Qed.

(** X9. The settings of a measurement never reach the NetCDF variable
    parameters of a product.  Whatever statistic a product names, the
    measurements the statistic declares carry the four keys name, dtype,
    nodata and units only, so the update of [_create_netcdf_var_params] from
    the measurement adds nothing: every variable of every product gets the
    standard parameters of the product definition and nothing else. *)
Theorem netcdf_var_params_from_definition_only
        (definition : ProductDefinition.t) (storage : Storage.t) (s : statistic)
        (input_measurements data_measurements : list measurement)
        (variable_params : list (string * VariableParams.t)) :
  statistic_measurements s input_measurements = Ok data_measurements ->
  StatProduct.create_netcdf_var_params definition storage data_measurements
  = Ok variable_params ->
  forall name entry,
    dict_get variable_params name = Some entry ->
    VariableParams.params entry
    = filter (fun kv => contains STANDARD_VARIABLE_PARAM_NAMES (fst kv))
             (ProductDefinition.params definition).
Proof.
  intros Hdeclared Hcreate name entry Hget.
  apply statistic_measurements_plain in Hdeclared.
  unfold StatProduct.create_netcdf_var_params in Hcreate.
  destruct (mapM (getitem (Storage.chunking storage)) (Storage.dimension_order storage))
    as [chunking | e]; cbn [bind] in Hcreate; [| discriminate].
  injection Hcreate as <-.
  set (standard := fun kv : string * string =>
                     contains STANDARD_VARIABLE_PARAM_NAMES (fst kv)) in *.
  set (value := fun m : measurement =>
                  VariableParams.mk chunking
                    (fold_left (fun d kv => dict_set d (fst kv) (snd kv))
                               (filter standard (Measurement.extras m))
                               (filter standard (ProductDefinition.params definition)))).
  change (fold_left _ data_measurements [])
    with (fold_left (fun d m => dict_set d (Measurement.name m) (value m))
                    data_measurements []) in Hget.
  rewrite (fold_left_dict_set_map Measurement.name value) in Hget.
  apply dict_get_value in Hget.
  assert (Hall : Forall (fun vp => VariableParams.params vp
                                   = filter standard (ProductDefinition.params definition))
                        (map snd (fold_left (fun d kv => dict_set d (fst kv) (snd kv))
                                            (map (fun m => (Measurement.name m, value m))
                                                 data_measurements) []))).
  { apply fold_dict_set_values; [constructor |].
    rewrite map_map. apply Forall_forall. intros vp Hin.
    apply in_map_iff in Hin. destruct Hin as (m & <- & Hm).
    rewrite Forall_forall in Hdeclared. unfold value. simpl.
    now rewrite (Hdeclared m Hm). }
  rewrite Forall_forall in Hall. now apply Hall.
Qed.

(** The source measurement sets complevel; the product sets zlib. *)
Lemma netcdf_var_params_from_definition_only_witness :
  let definition := ProductDefinition.mk "red_mean" "mean" "mean.nc"
                                         [("zlib", "True"); ("title", "Mean")] in
  let storage := Storage.mk "NetCDF CF" "EPSG:3577" [("time", 1); ("y", 200); ("x", 100)]
                            ["time"; "y"; "x"] in
  let red := Measurement.mk "red" "int16" (PyInt (-999)) "1" [("complevel", "4")] in
  exists variable_params entry,
    StatProduct.create_netcdf_var_params definition storage (ValueStat.measurements [red])
    = Ok variable_params
    /\ dict_get variable_params "red" = Some entry
    /\ VariableParams.params entry = [("zlib", "True")].
Proof.
  intros definition storage red.
  exists [("red", VariableParams.mk [1; 200; 100] [("zlib", "True")])],
    (VariableParams.mk [1; 200; 100] [("zlib", "True")]).
  split; [reflexivity |]. split; [reflexivity |].
  exact (netcdf_var_params_from_definition_only
           definition storage (ValueStatistic "mean") [red] (ValueStat.measurements [red])
           [("red", VariableParams.mk [1; 200; 100] [("zlib", "True")])]
           eq_refl eq_refl "red" (VariableParams.mk [1; 200; 100] [("zlib", "True")]) eq_refl).
Defined.

(** ** The phases of do_stats *)

Section OnlyAdds.
Variable P : OutputDriver.t -> sink_event -> Prop.
(** [P] depends on the state through [output_files] only. *)
Hypothesis P_files : forall s s' e,
    OutputDriver.output_files s' = OutputDriver.output_files s -> P s e -> P s' e.






End OnlyAdds.


Lemma closes_stored_files (s s' : OutputDriver.t) (e : sink_event) :
  OutputDriver.output_files s' = OutputDriver.output_files s ->
  closes_stored s e -> closes_stored s' e.
Proof. unfold closes_stored. now intros ->. Qed.






Lemma close_run (env : Env.t) (sink : nat) (s : OutputDriver.t) :
  OutputDriver.close env sink s
  = (match Env.close_raises env sink with Some e => Raise e | None => Ok tt end,
     OutputDriver.mk (OutputDriver.output_files s)
                     (OutputDriver.trace s ++ [CloseCalled sink])).
Proof.
  unfold OutputDriver.close, io_bind, OutputDriver.log, OutputDriver.may_raise.
  now destruct (Env.close_raises env sink).
Qed.



Lemma open_and_store_run (env : Env.t) (key prod_name : string) (var : option string)
      (s : OutputDriver.t) :
  open_and_store env (key, (prod_name, var)) s
  = match Env.open_raises env prod_name var with
    | Some e => (Raise e, s)
    | None =>
        let sink := List.length (OutputDriver.opened (OutputDriver.trace s)) in
        (Ok tt, OutputDriver.mk (dict_set (OutputDriver.output_files s) key sink)
                                (OutputDriver.trace s ++ [Opened sink prod_name var]))
    end.
Proof.
  unfold open_and_store, OutputDriver.open_sink, OutputDriver.store, io_bind,
    OutputDriver.may_raise. simpl.
  now destruct (Env.open_raises env prod_name var).
Qed.


Lemma for_each_emits {A : Type} (files : list (string * nat)) (events : A -> list sink_event)
      (xs : list A) (body : A -> io OutputDriver.t unit) :
  (forall x trace, In x xs ->
                   body x (OutputDriver.mk files trace)
                   = (Ok tt, OutputDriver.mk files (trace ++ events x))) ->
  forall trace,
    for_each xs body (OutputDriver.mk files trace)
    = (Ok tt, OutputDriver.mk files (trace ++ flat_map events xs)).
Proof.
  induction xs as [| x xs IH]; intros Hbody trace; simpl.
  - now rewrite app_nil_r.
  - unfold io_bind. rewrite Hbody by now left.
    rewrite IH by (intros; apply Hbody; now right). now rewrite app_assoc.
Qed.

Lemma open_plan_quiet (env : Env.t) (plan : list (string * (string * option string)))
      (files : list (string * nat)) (trace : list sink_event) :
  (forall prod_name var, Env.open_raises env prod_name var = None) ->
  NoDup (map fst files ++ map fst plan) ->
  for_each plan (open_and_store env) (OutputDriver.mk files trace)
  = (Ok tt,
     OutputDriver.mk
       (files ++ combine (map fst plan)
                         (seq (List.length (OutputDriver.opened trace)) (List.length plan)))
       (trace ++ map (fun ie => Opened (fst ie) (fst (snd (snd ie))) (snd (snd (snd ie))))
                     (combine (seq (List.length (OutputDriver.opened trace))
                                   (List.length plan)) plan))).
Proof.
  intros Hquiet. revert files trace.
  induction plan as [| [key [prod_name var]] rest IH]; intros files trace Hnodup; simpl.
  - now rewrite !app_nil_r.
  - unfold io_bind. rewrite open_and_store_run, Hquiet. cbv zeta. cbn [OutputDriver.trace
      OutputDriver.output_files].
    rewrite dict_set_fresh.
    2:{ simpl in Hnodup. apply NoDup_remove_2 in Hnodup. intros Hin. apply Hnodup.
        apply in_or_app. now left. }
    rewrite IH.
    2:{ rewrite map_app. simpl. rewrite <- app_assoc. exact Hnodup. }
    rewrite opened_app, length_app. simpl. rewrite Nat.add_1_r, <- !app_assoc. reflexivity.
Qed.

Lemma getitem_combine_seq (keys : list string) (key : string) (start : nat) :
  In key keys ->
  getitem (combine keys (seq start (List.length keys))) key
  = Ok (start + index_of keys key)%nat.
Proof.
  unfold getitem. revert start. induction keys as [| k rest IH]; intros start Hin; [destruct Hin |].
  simpl. destruct (String.eqb_spec k key) as [-> | Hne].
  - now rewrite Nat.add_0_r.
  - destruct Hin as [-> | Hin]; [congruence |].
    specialize (IH (S start) Hin). rewrite Nat.add_succ_r. exact IH.
Qed.

Lemma map_snd_combine_keys (keys : list string) (start : nat) :
  map snd (combine keys (seq start (List.length keys))) = seq start (List.length keys).
Proof.
  revert start. induction keys as [| k rest IH]; intros start; simpl; [reflexivity |].
  now rewrite IH.
Qed.

Lemma write_data_quiet (env : Env.t) (kind : driver)
      (output_products : list (string * StatProduct.t)) (ps : string * StatProduct.t)
      (var_name : string) (chunk : nat) (trace : list sink_event) :
  (forall sink var chunk, Env.write_raises env sink var chunk = None) ->
  NoDup (map fst output_products) ->
  In ps output_products ->
  (kind = RioOutputDriver -> In var_name (OutputDriver.measurement_names_of (snd ps))) ->
  In (write_key kind (fst ps) var_name) (sink_keys kind output_products) ->
  let keys := sink_keys kind output_products in
  let files := combine keys (seq 0 (List.length keys)) in
  OutputDriver.write_data env kind output_products (fst ps) var_name chunk
                          (OutputDriver.mk files trace)
  = (Ok tt,
     OutputDriver.mk files
                     (trace ++ [Wrote (index_of keys (write_key kind (fst ps) var_name))
                                      var_name chunk])).
Proof.
  intros Hquiet Hnodup Hps Hdeclared Hkey keys files.
  assert (Hlookup : forall trace0,
             OutputDriver.lookup (write_key kind (fst ps) var_name)
                                 (OutputDriver.mk files trace0)
             = (Ok (index_of keys (write_key kind (fst ps) var_name)),
                OutputDriver.mk files trace0)).
  { intros trace0. unfold OutputDriver.lookup. cbn [OutputDriver.output_files].
    subst files. now rewrite getitem_combine_seq. }
  unfold OutputDriver.write_data. destruct kind; cbn [write_key] in *.
  - unfold io_bind. rewrite Hlookup, Hquiet. reflexivity.
  - assert (Hdtype : exists dtype,
               OutputDriver.get_dtype output_products (fst ps) var_name = Ok dtype).
    { unfold OutputDriver.get_dtype.
      assert (Hstat : getitem output_products (fst ps) = Ok (snd ps)).
      { clear - Hnodup Hps. unfold getitem.
        induction output_products as [| [k v] rest IH]; [destruct Hps |].
        simpl in *. inversion Hnodup as [| ? ? Hfresh Hrest]; subst.
        destruct Hps as [<- | Hps]; simpl.
        - now rewrite String.eqb_refl.
        - destruct (String.eqb_spec k (fst ps)) as [-> | Hne].
          + exfalso. apply Hfresh. now apply in_map.
          + now apply IH. }
      rewrite Hstat. cbn [bind].
      specialize (Hdeclared eq_refl). unfold OutputDriver.measurement_names_of in Hdeclared.
      unfold getitem.
      induction (DatasetType.measurements (StatProduct.product (snd ps))) as [| [k m] rest IH];
        [destruct Hdeclared |].
      simpl in *. destruct (String.eqb_spec k var_name) as [-> | Hne].
      - now eexists.
      - destruct Hdeclared as [-> | Hin]; [congruence | now apply IH]. }
    destruct Hdtype as [dtype Hdtype].
    unfold io_bind, lift. rewrite Hdtype, Hlookup, Hquiet. reflexivity.
Qed.

Lemma map_as_flat_map {A B : Type} (f : A -> B) (xs : list A) :
  map f xs = flat_map (fun x => [f x]) xs.
Proof. induction xs as [| x xs IH]; simpl; [reflexivity | now rewrite IH]. Qed.

Lemma write_key_stored (kind : driver) (output_products : list (string * StatProduct.t))
      (ps : string * StatProduct.t) (var_name : string) :
  In ps output_products ->
  (kind = RioOutputDriver -> In var_name (OutputDriver.measurement_names_of (snd ps))) ->
  In (write_key kind (fst ps) var_name) (sink_keys kind output_products).
Proof.
  intros Hps Hdeclared. destruct kind; simpl.
  - now apply in_map.
  - apply in_flat_map. exists ps. split; [exact Hps |].
    apply in_map_iff. exists var_name. split; [reflexivity | now apply Hdeclared].
Qed.

(** X11. A run of do_stats in which nothing raises.  The task has a source,
    the product names are distinct (they are the keys of a dict), the keys
    of the sinks are distinct, every product is masked, every statistic
    returns, and a GeoTIFF product returns only variables it declares.  Then
    do_stats returns, and the history is: one sink opened per key, in the
    order of the products; for every chunk, every product and every
    variable returned for it, in this order, one write to the sink stored
    under the key of that variable; one close per sink, in the order of
    opening. *)
Theorem do_stats_quiet_run (env : Env.t) (task : StatsTask.t) (config : StatsConfig.t)
        (kind : driver) :
  getitem OUTPUT_DRIVERS (Storage.driver (StatsConfig.storage config)) = Ok kind ->
  StatsTask.sources task <> [] ->
  NoDup (map fst (StatsTask.output_products task)) ->
  NoDup (sink_keys kind (StatsTask.output_products task)) ->
  (forall prod_name var, Env.open_raises env prod_name var = None) ->
  (forall chunk, Env.load_data_raises env chunk = None) ->
  (forall sink var chunk, Env.write_raises env sink var chunk = None) ->
  (forall sink, Env.close_raises env sink = None) ->
  (forall ps, In ps (StatsTask.output_products task) -> StatProduct.masked (snd ps) = Ok true) ->
  (forall chunk ps, In chunk (Env.tile_iter env) -> In ps (StatsTask.output_products task) ->
                    exists vars, Env.compute env chunk (fst ps) = Ok vars
                                 /\ (kind = RioOutputDriver ->
                                     incl vars (OutputDriver.measurement_names_of (snd ps)))) ->
  exists final,
    do_stats env task config OutputDriver.init = (Ok tt, final)
    /\ OutputDriver.trace final
       = expected_opens kind (StatsTask.output_products task)
         ++ expected_writes env kind (StatsTask.output_products task)
         ++ expected_closes kind (StatsTask.output_products task).
Proof.
  intros Hkind Hsources Hnames Hkeys Hopen Hload Hwrite Hclose Hmasked Hcompute.
  set (products := StatsTask.output_products task) in *.
  set (keys := sink_keys kind products) in *.
  set (files := combine keys (seq 0 (List.length keys))).
  assert (Hopened : OutputDriver.open_output_files env kind products OutputDriver.init
                    = (Ok tt, OutputDriver.mk files (expected_opens kind products))).
  { rewrite open_output_files_plan. unfold OutputDriver.init.
    rewrite open_plan_quiet; [| exact Hopen | simpl; now rewrite opening_plan_keys].
    simpl. rewrite opening_plan_keys. unfold files, keys, expected_opens, enumerate.
    now rewrite <- (opening_plan_keys kind products), !length_map. }
  assert (Hbody : do_stats_body env kind task
                                (OutputDriver.mk files (expected_opens kind products))
                  = (Ok tt, OutputDriver.mk files (expected_opens kind products
                                                   ++ expected_writes env kind products))).
  { unfold do_stats_body, io_bind at 1, lift at 1.
    destruct (StatsTask.sources task) as [| example rest]; [congruence |].
    unfold expected_writes. apply for_each_emits. intros chunk trace Hchunk.
    unfold io_bind at 1. rewrite Hload. cbn [OutputDriver.may_raise ret].
    fold products. apply for_each_emits. intros ps trace1 Hps.
    destruct (Hcompute chunk ps Hchunk Hps) as (vars & Hvars & Hdeclared).
    unfold io_bind at 1, lift at 1. rewrite (Hmasked ps Hps).
    unfold io_bind at 1, ret at 1. unfold io_bind at 1, lift at 1. rewrite Hvars.
    unfold computed. rewrite Hvars.
    rewrite map_as_flat_map. apply for_each_emits.
    intros var_name trace2 Hvar.
    apply write_data_quiet; try assumption.
    - intros Hrio. now apply Hdeclared.
    - apply write_key_stored; [exact Hps |]. intros Hrio. now apply Hdeclared. }
  assert (Hclosed : forall trace,
             OutputDriver.close_files env (OutputDriver.mk files trace)
             = (Ok tt, OutputDriver.mk files (trace ++ expected_closes kind products))).
  { intros trace. unfold OutputDriver.close_files. cbn [OutputDriver.output_files].
    unfold files. rewrite map_snd_combine_keys. unfold expected_closes. fold keys.
    rewrite map_as_flat_map. apply for_each_emits. intros sink trace1 _. rewrite close_run, Hclose. reflexivity. }
  eexists. unfold do_stats, io_bind, lift. rewrite Hkind. unfold with_.
  fold products. rewrite Hopened, Hbody, Hclosed. split; [reflexivity |].
  cbn [OutputDriver.trace]. now rewrite <- app_assoc.
Qed.

(** Two NetCDF products over one chunk; each statistic returns 'red'. *)
Lemma do_stats_quiet_run_witness :
  exists final,
    do_stats (quiet_env ["red"]) (red_task two_netcdf_products) two_netcdf_products
             OutputDriver.init
    = (Ok tt, final)
    /\ OutputDriver.trace final
       = [Opened 0 "red_median" None; Opened 1 "red_mean" None;
          Wrote 0 "red" 0; Wrote 1 "red" 0;
          CloseCalled 0; CloseCalled 1].
Proof.
  destruct (do_stats_quiet_run (quiet_env ["red"]) (red_task two_netcdf_products)
                               two_netcdf_products NetcdfOutputDriver)
    as (final & Hrun & Htrace); try reflexivity.
  - discriminate.
  - vm_compute. repeat constructor; simpl; intuition discriminate.
  - vm_compute. repeat constructor; simpl; intuition discriminate.
  - intros ps Hps. vm_compute in Hps. destruct Hps as [<- | [<- | []]]; reflexivity.
  - intros chunk ps _ _. exists ["red"]. split; [reflexivity | discriminate].
  - exists final. split; [exact Hrun | exact Htrace].
Defined.

(** ** make_tasks_grid *)










Section GridLemmas.
Variable list_cells : string -> Z * Z -> string -> list ((Z * Z) * Tile.t).
Variable time_period : Z * Z.



End GridLemmas.


